(** * Telegram-DMI-Bot: the /drive command (module/commands/gdrive.py)

    A shallow embedding of the three functions of the module,
    [get_files_keyboard], [drive] and [drive_handler], and the properties
    of the keyboard layout, of the action tokens and of the two handlers.

    Python values are modelled as follows.
    - [str] is a sequence of Unicode code points: [list N].
    - [int] is [Z]; [%] and [//] are the floor operations [Z.modulo] and
      [Z.div], raising [ZeroDivisionError] on a zero divisor.
    - a [list] indexed by an [int] follows Python: a negative index counts
      from the end, an index out of range raises [IndexError].
    - a [dict] is a [gmap]; [{**a, **b}] lets the later entry win.
    - exceptions are values of [Exn]; a computation that can raise returns
      an [Outcome]. *)

From Stdlib Require Import ZArith NArith Ascii String DecimalString.
From stdpp Require Import base option list gmap.

Local Open Scope Z_scope.

(** ** Python strings *)

Module PyStr.

Abbreviation char := N (only parsing).
Abbreviation pystr := (list N) (only parsing).

(** An ASCII literal of the source, as code points. *)
Definition str (s : string) : pystr :=
  List.map N_of_ascii (list_ascii_of_string s).

(** [s[-n:]] for a positive [n]: the last [n] characters, or all of [s]
    when it is shorter. *)
Definition last_chars (n : nat) (s : pystr) : pystr :=
  drop (length s - n)%nat s.

(** [s.split(sep)] for a separator of one character. The result always
    has at least one element. *)
Fixpoint split (sep : char) (s : pystr) : list pystr :=
  match s with
  | [] => [[]]
  | c :: s' =>
      if N.eqb c sep then [] :: split sep s'
      else match split sep s' with
           | [] => [[c]]
           | w :: ws => (c :: w) :: ws
           end
  end.

(** [l[-1]] on a list of strings that is known to be non-empty. *)
Definition last_item (l : list pystr) : pystr := default [] (last l).

(** [old] is a prefix of [s]. *)
Fixpoint starts_with (old s : pystr) : bool :=
  match old, s with
  | [], _ => true
  | _ :: _, [] => false
  | a :: old', b :: s' => N.eqb a b && starts_with old' s'
  end.

(** The scan of [s.replace(old, new)] for a non-empty [old]: occurrences
    are found left to right and do not overlap; [skip] counts the
    characters of a matched occurrence still to be passed over. *)
Fixpoint replace_scan (old new s : pystr) (skip : nat) : pystr :=
  match s with
  | [] => []
  | c :: s' =>
      match skip with
      | S k => replace_scan old new s' k
      | O =>
          if starts_with old s
          then new ++ replace_scan old new s' (length old - 1)%nat
          else c :: replace_scan old new s' 0%nat
      end
  end.

(** [s.replace(old, new)]. With an empty [old] Python inserts [new]
    before every character and at the end. *)
Definition replace (old new s : pystr) : pystr :=
  match old with
  | [] => flat_map (fun c => new ++ [c]) s ++ new
  | _ :: _ => replace_scan old new s 0%nat
  end.

(** [old in s], as a proposition and as a test. *)
Definition contains (old s : pystr) : Prop :=
  exists pre post, s = pre ++ old ++ post.

Fixpoint containsb (old s : pystr) : bool :=
  starts_with old s ||
  match s with
  | [] => false
  | _ :: s' => containsb old s'
  end.

(** [str(z)] for an [int]. *)
Definition of_int (z : Z) : pystr :=
  str (NilZero.string_of_int (Z.to_int z)).

End PyStr.

Import PyStr.

(** ** Exceptions and results *)

Inductive Exn : Type :=
| ZeroDivisionError
| IndexError
| KeyError (key : pystr)
| CollaboratorError (name : pystr)
    (* an instance of [Exception] raised by an external collaborator *)
| SystemSignal (name : pystr).
    (* [KeyboardInterrupt], [SystemExit]: [BaseException] but not [Exception] *)

(** [isinstance(e, Exception)], what [except Exception] tests. *)
Definition is_Exception (e : Exn) : bool :=
  match e with
  | SystemSignal _ => false
  | _ => true
  end.

Inductive Outcome (A : Type) : Type :=
| Ok (a : A)
| Raise (e : Exn).
Arguments Ok {A} a.
Arguments Raise {A} e.

#[global] Instance Outcome_ret : MRet Outcome := fun _ a => Ok a.
#[global] Instance Outcome_bind : MBind Outcome :=
  fun _ _ f m => match m with Ok a => f a | Raise e => Raise e end.

(** ** Python integers and list indexing *)

Definition py_mod (a b : Z) : Outcome Z :=
  if b =? 0 then Raise ZeroDivisionError else Ok (a mod b).

Definition py_floordiv (a b : Z) : Outcome Z :=
  if b =? 0 then Raise ZeroDivisionError else Ok (a / b).

(** The position [l[k]] denotes: negative [k] counts from the end. *)
Definition py_index {A} (l : list A) (k : Z) : Outcome nat :=
  let n := Z.of_nat (length l) in
  let k' := if k <? 0 then k + n else k in
  if (0 <=? k') && (k' <? n) then Ok (Z.to_nat k') else Raise IndexError.

(** [l[k].append(x)] on a list of lists: the row is updated in place. *)
Definition py_append_at {A} (l : list (list A)) (k : Z) (x : A)
  : Outcome (list (list A)) :=
  j ← py_index l k;
  match l !! j with
  | Some row => Ok (<[j := row ++ [x]]> l)
  | None => Raise IndexError
  end.

(** ** Data model *)

(** A value of the [formats] table: a string, or the number of the
    malformed entry. *)
Inductive PyVal : Type :=
| PStr (s : pystr)
| PInt (z : Z).

(** [f"{v}"]. *)
Definition py_format (v : PyVal) : pystr :=
  match v with
  | PStr s => s
  | PInt z => of_int z
  end.

Record ParentRef : Type := { parent_id : pystr }.

(** [GoogleDriveFile], with the keys the module reads. [fileSize] is the
    integer its decimal string denotes; it, [exportLinks] and
    [alternateLink] can be absent, and reading them then raises
    [KeyError]. *)
Record GoogleDriveFile : Type := {
  id : pystr;
  title : pystr;
  mimeType : pystr;
  parents : list ParentRef;
  fileSize : option Z;
  exportLinks : option (gmap (list N) (list N));
  alternateLink : option pystr
}.

Record InlineKeyboardButton : Type := {
  text : pystr;
  callback_data : pystr
}.

Abbreviation Keyboard := (list (list InlineKeyboardButton)) (only parsing).

(** ** get_files_keyboard *)

Definition FOLDER_MIME : pystr := str "application/vnd.google-apps.folder".
Definition DOCUMENT_MIME : pystr := str "application/vnd.google-apps.document".

(** The glyphs, each followed by the space the source keeps inside the
    literal: U+1F4D5, U+1F4C4, U+1F4F7, U+1F4E6, U+2699, U+1F4BB, U+1F5C2. *)
Definition ICON_BOOK : pystr := [0x1F4D5; 0x20]%N.
Definition ICON_PAGE : pystr := [0x1F4C4; 0x20]%N.
Definition ICON_CAMERA : pystr := [0x1F4F7; 0x20]%N.
Definition ICON_PACKAGE : pystr := [0x1F4E6; 0x20]%N.
Definition ICON_GEAR : pystr := [0x2699; 0x20]%N.
Definition ICON_COMPUTER : pystr := [0x1F4BB; 0x20]%N.
Definition ICON_FOLDER : pystr := [0x1F5C2; 0x20]%N.

(** [dict.fromkeys(keys, v)]. *)
Definition dict_fromkeys (keys : list pystr) (v : PyVal) : gmap (list N) PyVal :=
  foldl (fun d k => <[k := v]> d) ∅ keys.

(** [{**d1, **d2, ...}]: a key of a later dictionary replaces an earlier
    one. *)
Definition dict_unpack (ds : list (gmap (list N) PyVal)) : gmap (list N) PyVal :=
  foldl (fun acc d => d ∪ acc) ∅ ds.

Definition formats : gmap (list N) PyVal :=
  dict_unpack [
    {[ str "pdf" := PStr ICON_BOOK ]};
    dict_fromkeys [str " a"; str "b"; str "c"] (PInt 10);
    dict_fromkeys [str "doc"; str "docx"; str "txt"] (PStr ICON_PAGE);
    dict_fromkeys [str "jpg"; str "png"; str "gif"] (PStr ICON_CAMERA);
    dict_fromkeys [str "rar"; str "zip"] (PStr ICON_PACKAGE);
    dict_fromkeys [str "out"; str "exe"] (PStr ICON_GEAR);
    dict_fromkeys [str "c"; str "cpp"; str "h"; str "py"; str "java";
                   str "js"; str "html"; str "php"] (PStr ICON_COMPUTER)
  ].

(** [d.get(key, dflt)]. *)
Definition dict_get (d : gmap (list N) PyVal) (key : pystr) (dflt : PyVal) : PyVal :=
  default dflt (d !! key).

Definition DOT : N := 46%N.

(** The [if]/[else] at the head of the loop body: the icon of one item. *)
Definition icon_of (file : GoogleDriveFile) : PyVal :=
  if bool_decide (mimeType file = FOLDER_MIME) then PStr ICON_FOLDER
  else
    let file_format := last_chars 5 (title file) in
    let file_format := split DOT file_format in
    let file_format := last_item file_format in
    dict_get formats file_format (PStr ICON_PAGE).

Definition DRIVE_FILE_PREFIX : pystr := str "drive_file_".

Definition keyboard_button_of (file : GoogleDriveFile) : InlineKeyboardButton :=
  {| text := py_format (icon_of file) ++ str " " ++ title file;
     callback_data := DRIVE_FILE_PREFIX ++ id file |}.

(** The [for i, file in enumerate(file_list)] loop, from index [i] on. *)
Fixpoint get_files_keyboard_loop (row_len i : Z) (file_list : list GoogleDriveFile)
    (keyboard : Keyboard) : Outcome Keyboard :=
  match file_list with
  | [] => Ok keyboard
  | file :: rest =>
      let keyboard_button := keyboard_button_of file in
      r ← py_mod i row_len;
      if r =? 0 then
        get_files_keyboard_loop row_len (i + 1) rest (keyboard ++ [[keyboard_button]])
      else
        q ← py_floordiv i row_len;
        keyboard' ← py_append_at keyboard q keyboard_button;
        get_files_keyboard_loop row_len (i + 1) rest keyboard'
  end.

(** [get_files_keyboard(file_list, row_len)]; the callers that leave
    [row_len] out pass the default 2. *)
Definition get_files_keyboard (file_list : list GoogleDriveFile) (row_len : Z)
  : Outcome Keyboard :=
  get_files_keyboard_loop row_len 0 file_list [].

(** ** The collaborators and the effects of the handlers *)

(** The identifiers of the translated texts ([TEXT_IDS]) the module uses. *)
Inductive TextId : Type :=
| GROUP_WARNING_TEXT_ID
| DRIVE_HEADER_TEXT_ID
| DRIVE_ERROR_DEVS_TEXT_ID
| BACK_BUTTON_TEXT_TEXT_ID
| DRIVE_ERROR_GFILE_TEXT_ID
| DRIVE_ERROR_TOO_BIG_TEXT_ID.

Record User : Type := { user_id : Z; language_code : pystr }.
Record Message : Type := { message_id : Z; chat_id : Z; from_user : User }.
Record CallbackQuery : Type := {
  data : pystr;
  cq_from_user : User;
  cq_message : Message
}.

(** The update of a command carries a message, the update of a button
    press a callback query. *)
Record CommandUpdate : Type := { message : Message }.
Record CallbackUpdate : Type := { callback_query : CallbackQuery }.

(** The buffer of [GetContentIOBuffer]; [name] is set by the handler. *)
Record IOBuffer : Type := { stream : pystr; name : option pystr }.

(** One event per call to a collaborator, with its arguments. *)
Inductive Event : Type :=
| EvCheckLog (update : CommandUpdate) (command : pystr)
| EvGetLocale (locale : pystr) (text_id : TextId)
| EvListFiles (folder_id : option pystr)
| EvGetFile (file_id : pystr)
| EvGetContentIOBuffer (file : GoogleDriveFile)
| EvSendMessage (chat : Z) (txt : pystr) (reply_markup : option Keyboard)
| EvEditMessageText (chat msg : Z) (txt : pystr) (reply_markup : option Keyboard)
| EvSendChatAction (chat : Z) (action : pystr)
| EvSendDocument (chat : Z) (document : IOBuffer)
| EvLogError (header : pystr) (error : Exn)
| EvAnswer.

Abbreviation Trace := (list Event) (only parsing).

(** What the code imports and does not define: the constant
    [PLACE_HOLDER] and the collaborators. Each call returns or raises;
    its outcome may depend on the calls made before it. *)
Record Collaborators : Type := {
  PLACE_HOLDER : pystr;
  check_log_reply : Trace -> CommandUpdate -> pystr -> Outcome unit;
  get_locale_reply : Trace -> pystr -> TextId -> Outcome pystr;
  list_files_reply : Trace -> option pystr -> Outcome (option (list GoogleDriveFile));
  get_file_reply : Trace -> pystr -> Outcome GoogleDriveFile;
  GetContentIOBuffer_reply : Trace -> GoogleDriveFile -> Outcome IOBuffer;
  sendMessage_reply : Trace -> Z -> pystr -> option Keyboard -> Outcome unit;
  editMessageText_reply : Trace -> Z -> Z -> pystr -> option Keyboard -> Outcome unit;
  sendChatAction_reply : Trace -> Z -> pystr -> Outcome unit;
  sendDocument_reply : Trace -> Z -> IOBuffer -> Outcome unit;
  log_error_reply : Trace -> pystr -> Exn -> Outcome unit;
  answer_reply : Trace -> Outcome unit
}.

(** A handler step: from the calls made so far to an outcome and the
    calls made after it. *)
Definition M (A : Type) : Type := Trace -> Outcome A * Trace.

#[global] Instance M_ret : MRet M := fun _ a tr => (Ok a, tr).
#[global] Instance M_bind : MBind M :=
  fun _ _ f m tr =>
    match m tr with
    | (Ok a, tr') => f a tr'
    | (Raise e, tr') => (Raise e, tr')
    end.

(** A pure computation that can raise. *)
Definition lift {A} (o : Outcome A) : M A := fun tr => (o, tr).

(** A call: it is recorded, then the collaborator returns or raises. *)
Definition call {A} (ev : Event) (reply : Trace -> Outcome A) : M A :=
  fun tr => (reply tr, tr ++ [ev]).

(** [try: body except Exception as err: handler(err)]. *)
Definition try_except {A} (body : M A) (handler : Exn -> M A) : M A :=
  fun tr =>
    match body tr with
    | (Ok a, tr') => (Ok a, tr')
    | (Raise e, tr') =>
        if is_Exception e then handler e tr' else (Raise e, tr')
    end.

(** [d[key]] on a key that can be absent. *)
Definition getitem {A} (key : pystr) (v : option A) : M A :=
  match v with
  | Some a => mret a
  | None => lift (Raise (KeyError key))
  end.

(** How a block of statements ends: it falls through to the next
    statement, or it has executed [return]. *)
Inductive Completion : Type := Next | Return.

(** ** The calls of the module *)

Section Handlers.

Variable env : Collaborators.

Definition check_log (update : CommandUpdate) (command : pystr) : M unit :=
  call (EvCheckLog update command) (fun tr => check_log_reply env tr update command).

Definition get_locale (locale : pystr) (text_id : TextId) : M pystr :=
  call (EvGetLocale locale text_id) (fun tr => get_locale_reply env tr locale text_id).

Definition list_files (folder_id : option pystr) : M (option (list GoogleDriveFile)) :=
  call (EvListFiles folder_id) (fun tr => list_files_reply env tr folder_id).

Definition get_file (file_id : pystr) : M GoogleDriveFile :=
  call (EvGetFile file_id) (fun tr => get_file_reply env tr file_id).

Definition GetContentIOBuffer (file : GoogleDriveFile) : M IOBuffer :=
  call (EvGetContentIOBuffer file) (fun tr => GetContentIOBuffer_reply env tr file).

Definition sendMessage (chat : Z) (txt : pystr) (reply_markup : option Keyboard)
  : M unit :=
  call (EvSendMessage chat txt reply_markup)
       (fun tr => sendMessage_reply env tr chat txt reply_markup).

Definition editMessageText (chat msg : Z) (txt : pystr)
    (reply_markup : option Keyboard) : M unit :=
  call (EvEditMessageText chat msg txt reply_markup)
       (fun tr => editMessageText_reply env tr chat msg txt reply_markup).

Definition sendChatAction (chat : Z) (action : pystr) : M unit :=
  call (EvSendChatAction chat action) (fun tr => sendChatAction_reply env tr chat action).

Definition sendDocument (chat : Z) (document : IOBuffer) : M unit :=
  call (EvSendDocument chat document) (fun tr => sendDocument_reply env tr chat document).

Definition log_error (header : pystr) (error : Exn) : M unit :=
  call (EvLogError header error) (fun tr => log_error_reply env tr header error).

Definition answer : M unit := call EvAnswer (answer_reply env).

(** ** drive *)

(** [if file_list:] is false on [None] and on the empty list. *)
Definition drive (update : CommandUpdate) : M unit :=
  _ ← check_log update (str "drive");
  let chat_id := chat_id (message update) in
  let locale := language_code (from_user (message update)) in
  if chat_id <? 0 then
    warning ← get_locale locale GROUP_WARNING_TEXT_ID;
    sendMessage chat_id (replace (PLACE_HOLDER env) (str "/drive") warning) None
  else
    file_list ← list_files None;
    match file_list with
    | Some (file :: rest) =>
        keyboard ← lift (get_files_keyboard (file :: rest) 3);
        header ← get_locale locale DRIVE_HEADER_TEXT_ID;
        sendMessage chat_id header (Some keyboard)
    | Some [] | None =>
        error_text ← get_locale locale DRIVE_ERROR_DEVS_TEXT_ID;
        sendMessage chat_id error_text None
    end.

(** ** drive_handler *)

Definition ROOT_FOLDER_ID : pystr := str "0ADXK_Yx5406vUk9PVA".

(** [5e7]: the float equals the integer 50000000, and Python compares an
    [int] with a [float] exactly. *)
Definition SIZE_LIMIT : Z := 50000000.

(** [f.name = title]. *)
Definition set_name (f : IOBuffer) (title : pystr) : IOBuffer :=
  {| stream := stream f; name := Some title |}.

(** The [if] at lines 76-87: the keyboard with the back row, when the
    folder has a parent that is not the root. *)
Definition with_back_row (locale : pystr) (fetched_file : GoogleDriveFile)
    (keyboard : Keyboard) : M Keyboard :=
  match parents fetched_file with
  | parent :: _ =>
      if negb (bool_decide (parent_id parent = ROOT_FOLDER_ID)) then
        back_text ← get_locale locale BACK_BUTTON_TEXT_TEXT_ID;
        mret (keyboard ++ [[ {| text := back_text;
                                callback_data := DRIVE_FILE_PREFIX ++ parent_id parent |} ]])
      else mret keyboard
  | [] => mret keyboard
  end.

(** The body of the [try] of the regular-file branch. *)
Definition file_branch_body (chat_id : Z) (locale : pystr)
    (fetched_file : GoogleDriveFile) : M unit :=
  file_d ← get_file (id fetched_file);
  size ← getitem (str "fileSize") (fileSize file_d);
  if size <? SIZE_LIMIT then
    f ← GetContentIOBuffer file_d;
    let f := set_name f (title fetched_file) in
    _ ← sendChatAction chat_id (str "UPLOAD_DOCUMENT");
    sendDocument chat_id f
  else
    too_big ← get_locale locale DRIVE_ERROR_TOO_BIG_TEXT_ID;
    link ← getitem (str "alternateLink") (alternateLink file_d);
    sendMessage chat_id (replace (PLACE_HOLDER env) link too_big) None.

(** The [if]/[elif]/[else] on the kind of the fetched item. *)
Definition dispatch (chat_id message_id : Z) (locale : pystr)
    (fetched_file : GoogleDriveFile) : M Completion :=
  if bool_decide (mimeType fetched_file = FOLDER_MIME) then
    file_list ← list_files (Some (id fetched_file));
    match file_list with
    | None =>
        error_text ← get_locale locale DRIVE_ERROR_DEVS_TEXT_ID;
        _ ← editMessageText chat_id message_id error_text None;
        mret Return
    | Some file_list =>
        keyboard ← lift (get_files_keyboard file_list 2);
        keyboard ← with_back_row locale fetched_file keyboard;
        _ ← editMessageText chat_id message_id (title fetched_file ++ str ":")
              (Some keyboard);
        mret Next
    end
  else if bool_decide (mimeType fetched_file = DOCUMENT_MIME) then
    gfile_text ← get_locale locale DRIVE_ERROR_GFILE_TEXT_ID;
    links ← getitem (str "exportLinks") (exportLinks fetched_file);
    pdf ← getitem (str "application/pdf") (links !! str "application/pdf");
    _ ← sendMessage chat_id (replace (PLACE_HOLDER env) pdf gfile_text) None;
    mret Next
  else
    _ ← try_except (file_branch_body chat_id locale fetched_file)
                   (fun err => log_error (str "drive_handler") err);
    mret Next.

Definition drive_handler (update : CallbackUpdate) : M unit :=
  let query_data := replace DRIVE_FILE_PREFIX [] (data (callback_query update)) in
  let chat_id := user_id (cq_from_user (callback_query update)) in
  let message_id := message_id (cq_message (callback_query update)) in
  let locale := language_code (cq_from_user (callback_query update)) in
  fetched_file ← get_file query_data;
  completion ← dispatch chat_id message_id locale fetched_file;
  match completion with
  | Return => mret tt
  | Next => answer  (* stops the spinning *)
  end.

End Handlers.

(** ** The layout of a grid *)

(** The number of rows of width [w] that [n] buttons fill: the ceiling of
    [n / w]. *)
Definition ceil_div (n w : Z) : Z := (n + w - 1) / w.

(** After [i] items: the keyboard has [ceil_div i w] rows, and row [j]
    holds the buttons [j * w .. min (i, (j + 1) * w) - 1]. *)
Definition grid_inv (w i : Z) (keyboard : Keyboard) : Prop :=
  Z.of_nat (length keyboard) = ceil_div i w /\
  forall (j : nat) (row : list InlineKeyboardButton),
    keyboard !! j = Some row ->
    Z.of_nat (length row) = Z.min w (i - Z.of_nat j * w).

(** The layout under a negative width [- w]: after [i] items there are
    [ceil_div i w] rows, the rows after the first hold one button each,
    and the first holds all the others. *)
Definition pile_inv (w i : Z) (keyboard : Keyboard) : Prop :=
  Z.of_nat (length keyboard) = ceil_div i w /\
  (forall (j : nat) (row : list InlineKeyboardButton),
      keyboard !! S j = Some row -> length row = 1%nat) /\
  (forall row0 : list InlineKeyboardButton,
      keyboard !! 0%nat = Some row0 ->
      Z.of_nat (length row0) = i - (ceil_div i w - 1)) /\
  Z.of_nat (length (concat keyboard)) = i.

(** The entries of [formats] once the later dictionaries have replaced
    the earlier ones, in the order in which the map lists them: the key
    c has lost the number 10 to the glyph of the source files. *)
Definition formats_items : list (list N * PyVal) :=
  [ (str "py", PStr ICON_COMPUTER); (str "docx", PStr ICON_PAGE);
    (str "txt", PStr ICON_PAGE); (str "out", PStr ICON_GEAR);
    (str "js", PStr ICON_COMPUTER); (str "rar", PStr ICON_PACKAGE);
    (str "cpp", PStr ICON_COMPUTER); (str "zip", PStr ICON_PACKAGE);
    (str "php", PStr ICON_COMPUTER); (str "html", PStr ICON_COMPUTER);
    (str "h", PStr ICON_COMPUTER); (str "jpg", PStr ICON_CAMERA);
    (str "png", PStr ICON_CAMERA); (str "gif", PStr ICON_CAMERA);
    (str "pdf", PStr ICON_BOOK); (str "exe", PStr ICON_GEAR);
    (str "doc", PStr ICON_PAGE); (str "c", PStr ICON_COMPUTER);
    (str "b", PInt 10); (str "java", PStr ICON_COMPUTER);
    (str " a", PInt 10) ].

(** ** Observations on a trace *)

(** The calls to the drive service. *)
Definition is_drive_call (ev : Event) : bool :=
  match ev with
  | EvListFiles _ | EvGetFile _ | EvGetContentIOBuffer _ => true
  | _ => false
  end.

(** The calls of the stream-and-send path. *)
Definition is_stream_step (ev : Event) : bool :=
  match ev with
  | EvGetContentIOBuffer _ | EvSendChatAction _ _ | EvSendDocument _ _ => true
  | _ => false
  end.

(** The calls to [sendMessage]. *)
Definition is_message (ev : Event) : bool :=
  match ev with
  | EvSendMessage _ _ _ => true
  | _ => false
  end.

(** The keyboards that the calls to [editMessageText] of a trace carry. *)
Definition edited_keyboards (tr : list Event) : list (list (list InlineKeyboardButton)) :=
  omap (fun ev => match ev with
                  | EvEditMessageText _ _ _ reply_markup => reply_markup
                  | _ => None
                  end) tr.

(** The errors reported to [log_error] in a trace. *)
Definition reports (tr : list Event) : list (list N * Exn) :=
  omap (fun ev => match ev with
                  | EvLogError header error => Some (header, error)
                  | _ => None
                  end) tr.

(** The calls to [answer]. *)
Definition is_answer (ev : Event) : bool :=
  match ev with
  | EvAnswer => true
  | _ => false
  end.

(** The calls that [drive] can make. *)
Definition drive_may_call (ev : Event) : bool :=
  match ev with
  | EvCheckLog _ _ | EvGetLocale _ _ | EvListFiles _ | EvSendMessage _ _ _ => true
  | _ => false
  end.

(** ** Sample items, updates and collaborators *)

(** The three items of the layout example. *)
Definition sample_file (file_id file_title : string) : GoogleDriveFile :=
  {| id := str file_id; title := str file_title;
     mimeType := str "application/octet-stream"; parents := [];
     fileSize := None; exportLinks := None; alternateLink := None |}.

Definition sample_files : list GoogleDriveFile :=
  [sample_file "id1" "report.pdf"; sample_file "id2" "photo.jpg";
   sample_file "id3" "notes.txt"].

(** A folder with the given parents, and a regular file of the given
    size. *)
Definition sample_folder (parent_ids : list string) : GoogleDriveFile :=
  {| id := str "F1"; title := str "Lectures"; mimeType := FOLDER_MIME;
     parents := List.map (fun p => {| parent_id := str p |}) parent_ids;
     fileSize := None; exportLinks := None; alternateLink := None |}.

Definition under_root : list string := ["0ADXK_Yx5406vUk9PVA"%string; "P2"%string].
Definition under_P1 : list string := ["P1"%string; "P2"%string].

Definition sample_regular (size : Z) : GoogleDriveFile :=
  {| id := str "X1"; title := str "notes.txt"; mimeType := str "text/plain";
     parents := []; fileSize := Some size; exportLinks := None;
     alternateLink := Some (str "https://drive.example/X1") |}.

(** A command sent from a group, and the buttons of the folder and of the
    file pressed by a user. *)
Definition sample_user : User := {| user_id := 42; language_code := str "en" |}.

Definition group_update : CommandUpdate :=
  {| message := {| message_id := 7; chat_id := -1001; from_user := sample_user |} |}.

Definition folder_update : CallbackUpdate :=
  {| callback_query :=
       {| data := str "drive_file_F1"; cq_from_user := sample_user;
          cq_message := {| message_id := 7; chat_id := 42; from_user := sample_user |} |} |}.

Definition file_update : CallbackUpdate :=
  {| callback_query :=
       {| data := str "drive_file_X1"; cq_from_user := sample_user;
          cq_message := {| message_id := 7; chat_id := 42; from_user := sample_user |} |} |}.

(** Collaborators of which every call returns, but for the three that
    are given: the drive answers [get_file] with [files] and
    [list_files] with [listing], and the chat answers [sendDocument]
    with [send_document]. *)
Definition sample_text (text_id : TextId) : pystr :=
  match text_id with
  | GROUP_WARNING_TEXT_ID => str "Use {} in a private chat"
  | DRIVE_HEADER_TEXT_ID => str "Drive"
  | DRIVE_ERROR_DEVS_TEXT_ID => str "Service unavailable"
  | BACK_BUTTON_TEXT_TEXT_ID => str "Back"
  | DRIVE_ERROR_GFILE_TEXT_ID => str "Export: {}"
  | DRIVE_ERROR_TOO_BIG_TEXT_ID => str "Too big: {}"
  end.

Definition sample_env (files : list N -> Outcome GoogleDriveFile)
    (listing : Outcome (option (list GoogleDriveFile)))
    (send_document : Outcome unit) : Collaborators :=
  {| PLACE_HOLDER := str "{}";
     check_log_reply := fun _ _ _ => Ok tt;
     get_locale_reply := fun _ _ text_id => Ok (sample_text text_id);
     list_files_reply := fun _ _ => listing;
     get_file_reply := fun _ file_id => files file_id;
     GetContentIOBuffer_reply :=
       fun _ file => Ok {| stream := id file; name := None |};
     sendMessage_reply := fun _ _ _ _ => Ok tt;
     editMessageText_reply := fun _ _ _ _ _ => Ok tt;
     sendChatAction_reply := fun _ _ _ => Ok tt;
     sendDocument_reply := fun _ _ _ => send_document;
     log_error_reply := fun _ _ _ => Ok tt;
     answer_reply := fun _ => Ok tt |}.

(** A drive that is out of reach, as seen from a group. *)
Definition group_env : Collaborators :=
  sample_env (fun _ => Raise (CollaboratorError (str "ApiRequestError")))
             (Ok None) (Ok tt).

(** A folder with its children listed, and the same folder when the
    listing fails. *)
Definition folder_env (parent_ids : list string) : Collaborators :=
  sample_env (fun _ => Ok (sample_folder parent_ids)) (Ok (Some sample_files)) (Ok tt).

Definition failed_listing_env : Collaborators :=
  sample_env (fun _ => Ok (sample_folder under_P1)) (Ok None) (Ok tt).

(** A regular file of the given size; [failing_send] is a transfer that
    breaks. *)
Definition file_env (size : Z) (send_document : Outcome unit) : Collaborators :=
  sample_env (fun _ => Ok (sample_regular size)) (Ok None) send_document.

Definition failing_send : Outcome unit := Raise (CollaboratorError (str "NetworkError")).

(** A command sent from a private chat, and a drive that lists the three
    sample items at its root. *)
Definition private_update : CommandUpdate :=
  {| message := {| message_id := 8; chat_id := 42; from_user := sample_user |} |}.

Definition listing_env (listing : option (list GoogleDriveFile)) : Collaborators :=
  sample_env (fun _ => Raise (CollaboratorError (str "ApiRequestError")))
             (Ok listing) (Ok tt).

(** An online document with the given export links, and the button that
    selects it. *)
Definition sample_document (links : option (gmap (list N) (list N))) : GoogleDriveFile :=
  {| id := str "D1"; title := str "Syllabus"; mimeType := DOCUMENT_MIME;
     parents := []; fileSize := None; exportLinks := links; alternateLink := None |}.

Definition pdf_links : gmap (list N) (list N) :=
  {[ str "application/pdf" := str "https://docs.example/D1.pdf" ]}.

Definition document_env (links : option (gmap (list N) (list N))) : Collaborators :=
  sample_env (fun _ => Ok (sample_document links)) (Ok None) (Ok tt).

Definition document_update : CallbackUpdate :=
  {| callback_query :=
       {| data := str "drive_file_D1"; cq_from_user := sample_user;
          cq_message := {| message_id := 7; chat_id := 42; from_user := sample_user |} |} |}.

(** A regular file without a recorded size, and a transfer interrupted by
    a signal that is not an [Exception]. *)
Definition sizeless_file : GoogleDriveFile :=
  {| id := str "X1"; title := str "notes.txt"; mimeType := str "text/plain";
     parents := []; fileSize := None; exportLinks := None;
     alternateLink := Some (str "https://drive.example/X1") |}.

Definition sizeless_env : Collaborators :=
  sample_env (fun _ => Ok sizeless_file) (Ok None) (Ok tt).

Definition interrupted_send : Outcome unit := Raise (SystemSignal (str "KeyboardInterrupt")).

(** A drive that is out of reach when a button is pressed. *)
Definition unreachable_env : Collaborators :=
  sample_env (fun _ => Raise (CollaboratorError (str "ApiRequestError")))
             (Ok None) (Ok tt).

(** * Properties *)

(** ** Tactics *)

(** Unfolds a handler into the sequence of its calls. *)
Ltac run_handler :=
  cbv [drive drive_handler dispatch file_branch_body with_back_row try_except
       check_log get_locale list_files get_file GetContentIOBuffer sendMessage
       editMessageText sendChatAction sendDocument log_error answer
       call lift getitem mbind M_bind mret M_ret fst snd].

(** Reduces the handler after the outcome of a call has been rewritten. *)
Ltac step := cbv beta iota; cbn [app negb].

(** Case analysis on the outcomes of the calls that are left. *)
Ltac branch :=
  repeat (step;
          match goal with
          | |- context [match ?r with Ok _ => _ | Raise _ => _ end] =>
              lazymatch r with
              | context [match _ with _ => _ end] => fail
              | _ => destruct r as [?|?] eqn:?
              end
          | |- context [if is_Exception ?e then _ else _] =>
              destruct (is_Exception e) eqn:?
          end).

Ltac trace_facts :=
  solve [ repeat constructor
        | eexists; reflexivity ].

(** Case analysis on every test the handler makes. *)
Ltac cases :=
  repeat (step;
          match goal with
          | |- context [match ?r with _ => _ end] =>
              lazymatch r with
              | context [match _ with _ => _ end] => fail
              | _ => destruct r eqn:?
              end
          end).

(** ** Arithmetic of the row count *)

Lemma ceil_div_spec n w :
  0 < w -> (ceil_div n w - 1) * w < n <= ceil_div n w * w.
Proof.
  intros Hw. unfold ceil_div.
  pose proof (Z.div_mod (n + w - 1) w ltac:(lia)) as Hdm.
  pose proof (Z.mod_pos_bound (n + w - 1) w Hw) as Hb.
  nia.
Qed.

Lemma ceil_div_unique n w q :
  0 < w -> (q - 1) * w < n <= q * w -> ceil_div n w = q.
Proof.
  intros Hw Hq. pose proof (ceil_div_spec n w Hw). nia.
Qed.

Lemma ceil_div_new_row w i :
  0 < w -> 0 <= i -> i mod w = 0 ->
  ceil_div i w = i / w /\ ceil_div (i + 1) w = i / w + 1.
Proof.
  intros Hw Hi Hm.
  pose proof (Z.div_mod i w ltac:(lia)) as Hdm. rewrite Hm in Hdm.
  split; apply ceil_div_unique; nia.
Qed.

Lemma ceil_div_same_row w i :
  0 < w -> 0 <= i -> i mod w <> 0 ->
  ceil_div i w = i / w + 1 /\ ceil_div (i + 1) w = i / w + 1.
Proof.
  intros Hw Hi Hm.
  pose proof (Z.div_mod i w ltac:(lia)) as Hdm.
  pose proof (Z.mod_pos_bound i w Hw) as Hb.
  split; apply ceil_div_unique; nia.
Qed.

(** ** The layout invariant of the loop *)

Lemma grid_inv_nil w : 0 < w -> grid_inv w 0 [].
Proof.
  intros Hw. split.
  - symmetry. apply ceil_div_unique; simpl; lia.
  - intros j row Hl. rewrite lookup_nil in Hl. discriminate.
Qed.

Lemma grid_inv_new_row w i (keyboard : Keyboard) b :
  0 < w -> 0 <= i -> i mod w = 0 ->
  grid_inv w i keyboard -> grid_inv w (i + 1) (keyboard ++ [[b]]).
Proof.
  intros Hw Hi Hm [Hlen Hrows].
  destruct (ceil_div_new_row w i Hw Hi Hm) as [Hc Hc'].
  pose proof (Z.div_mod i w ltac:(lia)) as Hdm. rewrite Hm in Hdm.
  split.
  - rewrite length_app. simpl. lia.
  - intros j row Hl. apply lookup_app_Some in Hl as [Hl | [Hge Hl]].
    + pose proof (lookup_lt_Some _ _ _ Hl) as Hlt.
      rewrite (Hrows j row Hl). nia.
    + destruct (j - length keyboard)%nat as [|k] eqn:Hk; simpl in Hl; [|discriminate].
      inversion Hl; subst row. simpl.
      assert (Z.of_nat j = i / w) by lia. nia.
Qed.

Lemma grid_inv_last_row w i (keyboard : Keyboard) :
  0 < w -> 0 <= i -> i mod w <> 0 -> grid_inv w i keyboard ->
  exists keyboard0 row,
    keyboard = keyboard0 ++ [row] /\ Z.of_nat (length keyboard0) = i / w.
Proof.
  intros Hw Hi Hm [Hlen _].
  destruct (ceil_div_same_row w i Hw Hi Hm) as [Hc _].
  pose proof (Z.div_pos i w Hi Hw) as Hq.
  destruct keyboard as [|row keyboard0 _] using rev_ind.
  - simpl in Hlen. lia.
  - exists keyboard0, row. split; [reflexivity|].
    rewrite length_app in Hlen. simpl in Hlen. lia.
Qed.

Lemma py_append_at_last {A} (l0 : list (list A)) row x k :
  k = Z.of_nat (length l0) ->
  py_append_at (l0 ++ [row]) k x = Ok (l0 ++ [row ++ [x]]).
Proof.
  intros ->. unfold py_append_at, py_index.
  rewrite length_app. simpl.
  replace (Z.of_nat (length l0) <? 0) with false by (symmetry; apply Z.ltb_ge; lia).
  replace (0 <=? Z.of_nat (length l0)) with true by (symmetry; apply Z.leb_le; lia).
  replace (Z.of_nat (length l0) <? Z.of_nat (length l0 + 1)) with true
    by (symmetry; apply Z.ltb_lt; lia).
  simpl. rewrite Nat2Z.id.
  rewrite list_lookup_middle by reflexivity.
  rewrite insert_app_r_alt by lia.
  rewrite Nat.sub_diag. reflexivity.
Qed.

Lemma grid_inv_same_row w i (keyboard0 : Keyboard) row b :
  0 < w -> 0 <= i -> i mod w <> 0 ->
  grid_inv w i (keyboard0 ++ [row]) ->
  grid_inv w (i + 1) (keyboard0 ++ [row ++ [b]]).
Proof.
  intros Hw Hi Hm [Hlen Hrows].
  destruct (ceil_div_same_row w i Hw Hi Hm) as [Hc Hc'].
  pose proof (Z.div_mod i w ltac:(lia)) as Hdm.
  pose proof (Z.mod_pos_bound i w Hw) as Hb.
  rewrite length_app in Hlen. simpl in Hlen.
  split.
  - rewrite length_app. simpl. lia.
  - intros j r Hl. apply lookup_app_Some in Hl as [Hl | [Hge Hl]].
    + pose proof (lookup_lt_Some _ _ _ Hl) as Hlt.
      rewrite (Hrows j r); [nia|]. apply lookup_app_l_Some. exact Hl.
    + destruct (j - length keyboard0)%nat as [|k] eqn:Hk; simpl in Hl; [|discriminate].
      inversion Hl; subst r.
      assert (j = length keyboard0) by lia. subst j.
      rewrite length_app. simpl.
      rewrite Nat2Z.inj_add, (Hrows (length keyboard0) row).
      * nia.
      * apply list_lookup_middle. reflexivity.
Qed.

(** The loop keeps the invariant, never raises, and appends the buttons
    in the order of the list. *)
Lemma get_files_keyboard_loop_spec w :
  0 < w ->
  forall (file_list : list GoogleDriveFile) i (keyboard : Keyboard),
    0 <= i -> grid_inv w i keyboard ->
    exists keyboard',
      get_files_keyboard_loop w i file_list keyboard = Ok keyboard' /\
      grid_inv w (i + Z.of_nat (length file_list)) keyboard' /\
      concat keyboard' = concat keyboard ++ List.map keyboard_button_of file_list.
Proof.
  intros Hw. assert (Hw0 : (w =? 0) = false) by (apply Z.eqb_neq; lia).
  induction file_list as [|file rest IH]; intros i keyboard Hi Hinv.
  - exists keyboard. simpl. rewrite Z.add_0_r, app_nil_r. auto.
  - cbn [get_files_keyboard_loop]. unfold py_mod, py_floordiv. rewrite Hw0.
    cbn [mbind Outcome_bind].
    destruct (i mod w =? 0) eqn:Hm.
    + apply Z.eqb_eq in Hm.
      destruct (IH (i + 1) (keyboard ++ [[keyboard_button_of file]])) as (k' & Hrun & Hinv' & Hcat).
      * lia.
      * apply grid_inv_new_row; assumption.
      * exists k'. split; [exact Hrun|]. split.
        -- replace (i + Z.of_nat (length (file :: rest)))
             with (i + 1 + Z.of_nat (length rest)) by (simpl length; lia).
           exact Hinv'.
        -- rewrite Hcat, concat_app. simpl. rewrite <- app_assoc. reflexivity.
    + apply Z.eqb_neq in Hm.
      destruct (grid_inv_last_row w i keyboard Hw Hi Hm Hinv) as (k0 & row & -> & Hk0).
      rewrite (py_append_at_last k0 row) by lia.
      destruct (IH (i + 1) (k0 ++ [row ++ [keyboard_button_of file]])) as (k' & Hrun & Hinv' & Hcat).
      * lia.
      * apply grid_inv_same_row; assumption.
      * exists k'. split; [exact Hrun|]. split.
        -- replace (i + Z.of_nat (length (file :: rest)))
             with (i + 1 + Z.of_nat (length rest)) by (simpl length; lia).
           exact Hinv'.
        -- rewrite Hcat, !concat_app. simpl. rewrite !app_nil_r, <- !app_assoc.
           reflexivity.
Qed.

Lemma get_files_keyboard_spec (file_list : list GoogleDriveFile) (row_len : Z) :
  0 < row_len ->
  exists keyboard,
    get_files_keyboard file_list row_len = Ok keyboard /\
    grid_inv row_len (Z.of_nat (length file_list)) keyboard /\
    concat keyboard = List.map keyboard_button_of file_list.
Proof.
  intros Hw.
  destruct (get_files_keyboard_loop_spec row_len Hw file_list 0 [])
    as (k & Hrun & Hinv & Hcat); [lia | apply grid_inv_nil; exact Hw |].
  exists k. auto.
Qed.

(** The buttons stand left to right, top to bottom, in the order of the
    input. *)
Lemma get_files_keyboard_order (file_list : list GoogleDriveFile) (row_len : Z) keyboard :
  0 < row_len ->
  get_files_keyboard file_list row_len = Ok keyboard ->
  concat keyboard = List.map keyboard_button_of file_list.
Proof.
  intros Hw Hrun.
  destruct (get_files_keyboard_spec file_list row_len Hw) as (k & Hk & _ & Hcat).
  congruence.
Qed.

(** C1. For a list of N items and a positive row width W,
    [get_files_keyboard] returns a grid of ceil(N/W) rows; every row but
    the last has W buttons, the last has N mod W buttons (W when N mod W
    is 0), and the rows hold N buttons in all. *)
Theorem get_files_keyboard_grid (file_list : list GoogleDriveFile) (row_len : Z) :
  0 < row_len ->
  exists keyboard,
    get_files_keyboard file_list row_len = Ok keyboard /\
    let n := Z.of_nat (length file_list) in
    Z.of_nat (length keyboard) = ceil_div n row_len /\
    (forall (j : nat) row,
        keyboard !! j = Some row -> (S j < length keyboard)%nat ->
        Z.of_nat (length row) = row_len) /\
    (forall row,
        last keyboard = Some row ->
        Z.of_nat (length row) =
          if n mod row_len =? 0 then row_len else n mod row_len) /\
    Z.of_nat (length (concat keyboard)) = n.
Proof.
  intros Hw.
  destruct (get_files_keyboard_spec file_list row_len Hw) as (k & Hrun & [Hlen Hrows] & Hcat).
  exists k. split; [exact Hrun|]. cbv zeta.
  set (n := Z.of_nat (length file_list)) in *.
  assert (Hn : 0 <= n) by (subst n; lia).
  pose proof (ceil_div_spec n row_len Hw) as Hc.
  split; [exact Hlen|]. split; [|split].
  - intros j row Hl Hj. rewrite (Hrows j row Hl). nia.
  - intros row Hl. rewrite last_lookup in Hl.
    rewrite (Hrows _ row Hl).
    assert (Hpos : (0 < length k)%nat).
    { destruct k; [discriminate|simpl; lia]. }
    replace (Z.of_nat (pred (length k))) with (ceil_div n row_len - 1) by lia.
    destruct (n mod row_len =? 0) eqn:Hm.
    + apply Z.eqb_eq in Hm.
      destruct (ceil_div_new_row row_len n Hw Hn Hm) as [-> _].
      pose proof (Z.div_mod n row_len ltac:(lia)). nia.
    + apply Z.eqb_neq in Hm.
      destruct (ceil_div_same_row row_len n Hw Hn Hm) as [-> _].
      pose proof (Z.div_mod n row_len ltac:(lia)).
      pose proof (Z.mod_pos_bound n row_len Hw). nia.
  - rewrite Hcat, length_map. reflexivity.
Qed.

Lemma get_files_keyboard_grid_witness :
  exists keyboard,
    get_files_keyboard sample_files 2 = Ok keyboard /\
    let n := Z.of_nat (length sample_files) in
    Z.of_nat (length keyboard) = ceil_div n 2 /\
    (forall (j : nat) row,
        keyboard !! j = Some row -> (S j < length keyboard)%nat ->
        Z.of_nat (length row) = 2) /\
    (forall row,
        last keyboard = Some row ->
        Z.of_nat (length row) = if n mod 2 =? 0 then 2 else n mod 2) /\
    Z.of_nat (length (concat keyboard)) = n.
Proof. apply (get_files_keyboard_grid sample_files 2). lia. Defined.

(** C10. For every list and every positive row width the builder returns
    a grid and raises nothing: whenever the loop appends to an existing
    row (the index [i] is not a multiple of [row_len]) the row
    [i // row_len] exists in the keyboard built so far, so no
    [IndexError] is raised; the empty list gives the empty grid. *)
Theorem get_files_keyboard_total (file_list : list GoogleDriveFile) (row_len : Z) :
  0 < row_len ->
  (exists keyboard, get_files_keyboard file_list row_len = Ok keyboard) /\
  (forall i (keyboard : Keyboard),
      0 <= i -> i mod row_len <> 0 -> grid_inv row_len i keyboard ->
      0 <= i / row_len < Z.of_nat (length keyboard)) /\
  get_files_keyboard [] row_len = Ok [].
Proof.
  intros Hw. split; [|split; [|reflexivity]].
  - destruct (get_files_keyboard_spec file_list row_len Hw) as (k & Hrun & _).
    exists k. exact Hrun.
  - intros i keyboard Hi Hm Hinv.
    destruct (grid_inv_last_row row_len i keyboard Hw Hi Hm Hinv) as (k0 & row & -> & Hk0).
    rewrite length_app. simpl. lia.
Qed.

Lemma get_files_keyboard_total_witness :
  (exists keyboard, get_files_keyboard sample_files 2 = Ok keyboard) /\
  (forall i (keyboard : Keyboard),
      0 <= i -> i mod 2 <> 0 -> grid_inv 2 i keyboard ->
      0 <= i / 2 < Z.of_nat (length keyboard)) /\
  get_files_keyboard [] 2 = Ok [].
Proof. apply (get_files_keyboard_total sample_files 2). lia. Defined.

(** ** The example of the layout *)

Lemma sample_files_keyboard :
  get_files_keyboard sample_files 2 =
  Ok [[ {| text := [0x1F4D5; 0x20; 0x20]%N ++ str "report.pdf";
           callback_data := str "drive_file_id1" |};
        {| text := [0x1F4F7; 0x20; 0x20]%N ++ str "photo.jpg";
           callback_data := str "drive_file_id2" |} ];
      [ {| text := [0x1F4C4; 0x20; 0x20]%N ++ str "notes.txt";
           callback_data := str "drive_file_id3" |} ]].
Proof. vm_compute. reflexivity. Qed.

Lemma get_files_keyboard_three (f1 f2 f3 : GoogleDriveFile) :
  get_files_keyboard [f1; f2; f3] 2 =
  Ok [[keyboard_button_of f1; keyboard_button_of f2]; [keyboard_button_of f3]].
Proof. reflexivity. Qed.

Lemma icon_of_file (file : GoogleDriveFile) :
  mimeType file <> FOLDER_MIME ->
  icon_of file =
  dict_get formats (last_item (split DOT (last_chars 5 (title file)))) (PStr ICON_PAGE).
Proof.
  intros Hk. unfold icon_of. rewrite bool_decide_eq_false_2 by exact Hk. reflexivity.
Qed.

(** C7 (as the code has it). Three items that are not folders, named
    report.pdf, photo.jpg and notes.txt, with row width 2 give two rows:
    the first with the buttons labelled U+1F4D5 report.pdf and U+1F4F7
    photo.jpg, the second with the button labelled U+1F4C4 notes.txt. In
    each label the glyph is followed by two spaces: the space that ends
    the icon string of the table and the space of the format. *)
Theorem get_files_keyboard_example (f1 f2 f3 : GoogleDriveFile) :
  title f1 = str "report.pdf" -> title f2 = str "photo.jpg" ->
  title f3 = str "notes.txt" ->
  mimeType f1 <> FOLDER_MIME -> mimeType f2 <> FOLDER_MIME ->
  mimeType f3 <> FOLDER_MIME ->
  exists keyboard,
    get_files_keyboard [f1; f2; f3] 2 = Ok keyboard /\
    List.map (List.map text) keyboard =
      [[ [0x1F4D5; 0x20; 0x20]%N ++ str "report.pdf";
         [0x1F4F7; 0x20; 0x20]%N ++ str "photo.jpg" ];
       [ [0x1F4C4; 0x20; 0x20]%N ++ str "notes.txt" ]] /\
    List.map (List.map callback_data) keyboard =
      [[ DRIVE_FILE_PREFIX ++ id f1; DRIVE_FILE_PREFIX ++ id f2 ];
       [ DRIVE_FILE_PREFIX ++ id f3 ]].
Proof.
  intros T1 T2 T3 K1 K2 K3.
  eexists. split; [apply get_files_keyboard_three|]. split; [|reflexivity].
  cbn [List.map keyboard_button_of text].
  rewrite !icon_of_file by assumption. rewrite T1, T2, T3.
  vm_compute. reflexivity.
Qed.

Lemma get_files_keyboard_example_witness :
  exists keyboard,
    get_files_keyboard sample_files 2 = Ok keyboard /\
    List.map (List.map text) keyboard =
      [[ [0x1F4D5; 0x20; 0x20]%N ++ str "report.pdf";
         [0x1F4F7; 0x20; 0x20]%N ++ str "photo.jpg" ];
       [ [0x1F4C4; 0x20; 0x20]%N ++ str "notes.txt" ]] /\
    List.map (List.map callback_data) keyboard =
      [[ DRIVE_FILE_PREFIX ++ str "id1"; DRIVE_FILE_PREFIX ++ str "id2" ];
       [ DRIVE_FILE_PREFIX ++ str "id3" ]].
Proof.
  apply (get_files_keyboard_example
           (sample_file "id1" "report.pdf") (sample_file "id2" "photo.jpg")
           (sample_file "id3" "notes.txt"));
    solve [reflexivity | vm_compute; discriminate].
Defined.

(** The labels with one space after the glyph are not what the builder
    returns on the three items of the example. *)
Lemma get_files_keyboard_example_one_space_fails :
  ~ exists keyboard,
      get_files_keyboard sample_files 2 = Ok keyboard /\
      List.map (List.map text) keyboard =
        [[ [0x1F4D5; 0x20]%N ++ str "report.pdf";
           [0x1F4F7; 0x20]%N ++ str "photo.jpg" ];
         [ [0x1F4C4; 0x20]%N ++ str "notes.txt" ]].
Proof.
  intros (keyboard & Hrun & Hlabels).
  rewrite sample_files_keyboard in Hrun. inversion Hrun; subst keyboard.
  vm_compute in Hlabels. discriminate Hlabels.
Qed.

(** ** The icon *)

(** C8. The icon of an item is a function of its kind (folder or not)
    and of the last five characters of its name: two items that agree on
    both get the same icon, whatever their other fields. *)
Theorem icon_of_deterministic (file1 file2 : GoogleDriveFile) :
  bool_decide (mimeType file1 = FOLDER_MIME)
    = bool_decide (mimeType file2 = FOLDER_MIME) ->
  last_chars 5 (title file1) = last_chars 5 (title file2) ->
  icon_of file1 = icon_of file2.
Proof.
  intros Hkind Htail. unfold icon_of. rewrite Hkind, Htail. reflexivity.
Qed.

Lemma icon_of_deterministic_witness :
  icon_of (sample_file "id1" "report.pdf")
  = icon_of {| id := str "another"; title := str "t.pdf";
               mimeType := str "application/pdf";
               parents := [ {| parent_id := str "p" |} ];
               fileSize := Some 12; exportLinks := None;
               alternateLink := Some (str "https://example.org/t") |}.
Proof.
  apply icon_of_deterministic; vm_compute; reflexivity.
Defined.

(** ** Facts on split *)

(** [split] never returns the empty list, so [last_item] reads a real
    last element. *)
Lemma split_nonempty (sep : N) (s : list N) : split sep s <> [].
Proof.
  destruct s as [|c s]; simpl; [discriminate|].
  destruct (N.eqb c sep); [discriminate|].
  destruct (split sep s); discriminate.
Qed.

Lemma last_item_split (sep : N) (s : list N) :
  exists w, last (split sep s) = Some w /\ last_item (split sep s) = w.
Proof.
  unfold last_item. destruct (last (split sep s)) as [w|] eqn:Hl.
  - exists w. auto.
  - apply last_None in Hl. destruct (split_nonempty sep s Hl).
Qed.

(** ** Facts on replace *)

(** Skipping [k] characters is scanning what is left after them. *)
Lemma replace_scan_skip (old new : list N) : forall s k,
  replace_scan old new s k = replace_scan old new (drop k s) 0.
Proof.
  induction s as [|c s IH]; intros k.
  - destruct k; reflexivity.
  - destruct k as [|k]; [reflexivity|]. simpl. apply IH.
Qed.

Lemma starts_with_app (old s : list N) : starts_with old (old ++ s) = true.
Proof.
  induction old as [|a l IH]; simpl; [reflexivity|].
  rewrite N.eqb_refl. exact IH.
Qed.

Lemma replace_scan_cons_head (a : N) (o new s : list N) :
  replace_scan (a :: o) new ((a :: o) ++ s) 0
  = new ++ replace_scan (a :: o) new s 0.
Proof.
  pose proof (starts_with_app (a :: o) s) as Hs.
  change ((a :: o) ++ s) with (a :: (o ++ s)) in *.
  cbn [replace_scan]. rewrite Hs. f_equal.
  rewrite replace_scan_skip.
  replace (length (a :: o) - 1)%nat with (length o) by (simpl; lia).
  rewrite drop_app_length. reflexivity.
Qed.

Section ReplaceFacts.

Variables old new : list N.
Hypothesis old_nonempty : old <> [].

Lemma replace_nonempty s : replace old new s = replace_scan old new s 0.
Proof. unfold replace. destruct old; [congruence | reflexivity]. Qed.

Lemma starts_with_inv : forall (o s : list N),
  starts_with o s = true -> exists post, s = o ++ post.
Proof.
  induction o as [|a o IH]; intros s H.
  - exists s. reflexivity.
  - destruct s as [|b s]; simpl in H; [discriminate|].
    apply andb_true_iff in H as [Hab Hs]. apply N.eqb_eq in Hab. subst b.
    destruct (IH s Hs) as [post ->]. exists post. reflexivity.
Qed.

(** An occurrence at the head is replaced, and the scan goes on after it. *)
Lemma replace_scan_head s :
  replace_scan old new (old ++ s) 0 = new ++ replace_scan old new s 0.
Proof.
  destruct old as [|a o]; [congruence | apply replace_scan_cons_head].
Qed.

(** A string in which [old] does not occur and does not start another
    string: the occurrence is further right. *)
Lemma contains_tail c s :
  starts_with old (c :: s) = false -> contains old (c :: s) -> contains old s.
Proof.
  intros Hs (pre & post & Heq). destruct pre as [|p pre].
  - simpl in Heq. rewrite Heq, starts_with_app in Hs. discriminate.
  - inversion Heq; subst. exists pre, post. reflexivity.
Qed.

Lemma contains_cons c s : contains old s -> contains old (c :: s).
Proof.
  intros (pre & post & ->). exists (c :: pre), post. reflexivity.
Qed.

Lemma contains_head s : starts_with old s = true -> contains old s.
Proof.
  intros H. destruct (starts_with_inv _ _ H) as [post ->]. exists [], post. reflexivity.
Qed.

Lemma containsb_spec s : containsb old s = true <-> contains old s.
Proof.
  induction s as [|c s IH].
  - simpl. rewrite orb_false_r. split; [apply contains_head|].
    intros (pre & post & Heq). destruct pre, old; try discriminate; reflexivity.
  - cbn [containsb]. rewrite orb_true_iff, IH. split.
    + intros [H | H]; [apply contains_head, H | apply contains_cons, H].
    + intros H. destruct (starts_with old (c :: s)) eqn:Hs; [left; reflexivity|].
      right. eapply contains_tail; eauto.
Qed.

End ReplaceFacts.

Section RemoveFacts.

Variable old : list N.
Hypothesis old_nonempty : old <> [].


(** Where [old] does not occur, nothing is removed. *)
Lemma remove_scan_absent : forall s,
  ~ contains old s -> replace_scan old [] s 0 = s.
Proof.
  induction s as [|c s IH]; intros Hno; [reflexivity|].
  cbn [replace_scan]. destruct (starts_with old (c :: s)) eqn:Hs.
  - exfalso. apply Hno, contains_head, Hs.
  - f_equal. apply IH. intros H. apply Hno, contains_cons, H.
Qed.


End RemoveFacts.



(** ** The action token *)

Lemma DRIVE_FILE_PREFIX_nonempty : DRIVE_FILE_PREFIX <> [].
Proof. discriminate. Qed.


(** An identifier that contains the prefix does not survive the round
    trip. *)
Example token_roundtrip_lossy :
  replace DRIVE_FILE_PREFIX [] (DRIVE_FILE_PREFIX ++ str "a_drive_file_b") = str "a_b".
Proof. vm_compute. reflexivity. Qed.

(** ** The handlers *)

(** C5. Called from a group chat (negative chat id), [drive] makes no
    call to the drive service, whatever the collaborators do; and when
    the access check and the text lookup return, the calls it makes are
    these two and one [sendMessage] of the group warning with the
    placeholder replaced by /drive, whose outcome is the handler's. *)
Theorem drive_group_short_circuit (env : Collaborators) (update : CommandUpdate) :
  chat_id (message update) < 0 ->
  let chat := chat_id (message update) in
  let locale := language_code (from_user (message update)) in
  let ev_log := EvCheckLog update (str "drive") in
  let ev_text := EvGetLocale locale GROUP_WARNING_TEXT_ID in
  Forall (fun ev => is_drive_call ev = false) (drive env update []).2 /\
  (forall warning,
      check_log_reply env [] update (str "drive") = Ok tt ->
      get_locale_reply env [ev_log] locale GROUP_WARNING_TEXT_ID = Ok warning ->
      let txt := replace (PLACE_HOLDER env) (str "/drive") warning in
      drive env update [] =
        (sendMessage_reply env [ev_log; ev_text] chat txt None,
         [ev_log; ev_text; EvSendMessage chat txt None])).
Proof.
  intros Hneg. cbv zeta. apply Z.ltb_lt in Hneg. split.
  - run_handler. rewrite Hneg. step.
    destruct (check_log_reply env [] update (str "drive")) as [[]|e]; simpl.
    + destruct (get_locale_reply env _ _ _); simpl; repeat constructor.
    + repeat constructor.
  - intros warning Hlog Htext. run_handler. rewrite Hneg. step.
    rewrite Hlog. step. rewrite Htext. reflexivity.
Qed.

Lemma drive_group_short_circuit_witness :
  Forall (fun ev => is_drive_call ev = false) (drive group_env group_update []).2 /\
  drive group_env group_update [] =
    (Ok tt,
     [EvCheckLog group_update (str "drive");
      EvGetLocale (str "en") GROUP_WARNING_TEXT_ID;
      EvSendMessage (-1001) (str "Use /drive in a private chat") None]).
Proof.
  destruct (drive_group_short_circuit group_env group_update eq_refl) as [Hno Hsend].
  split; [exact Hno | exact (Hsend _ eq_refl eq_refl)].
Defined.

(** C2. In the folder branch, with the children listed: the keyboard
    sent by [editMessageText] is the grid of the children alone when the
    folder has no parent or its first parent is the root folder;
    otherwise it is that grid followed by one row of one button, whose
    callback data is drive_file_ followed by the identifier of the first
    parent. *)
Theorem drive_handler_back_row (env : Collaborators) (update : CallbackUpdate)
    (fetched_file : GoogleDriveFile) (file_list : list GoogleDriveFile) :
  let cq := callback_query update in
  let query_data := replace DRIVE_FILE_PREFIX [] (data cq) in
  let locale := language_code (cq_from_user cq) in
  let ev_fetch := EvGetFile query_data in
  let ev_list := EvListFiles (Some (id fetched_file)) in
  get_file_reply env [] query_data = Ok fetched_file ->
  mimeType fetched_file = FOLDER_MIME ->
  list_files_reply env [ev_fetch] (Some (id fetched_file)) = Ok (Some file_list) ->
  exists keyboard,
    get_files_keyboard file_list 2 = Ok keyboard /\
    ((parents fetched_file = [] \/
      (exists p ps, parents fetched_file = p :: ps /\ parent_id p = ROOT_FOLDER_ID)) ->
     edited_keyboards (drive_handler env update []).2 = [keyboard]) /\
    (forall p ps back_text,
        parents fetched_file = p :: ps -> parent_id p <> ROOT_FOLDER_ID ->
        get_locale_reply env [ev_fetch; ev_list] locale BACK_BUTTON_TEXT_TEXT_ID
          = Ok back_text ->
        edited_keyboards (drive_handler env update []).2 =
          [keyboard ++
             [[ {| text := back_text;
                   callback_data := DRIVE_FILE_PREFIX ++ parent_id p |} ]]]).
Proof.
  cbv zeta. intros Hget Hkind Hlist.
  destruct (get_files_keyboard_spec file_list 2 ltac:(lia)) as (keyboard & Hk & _).
  exists keyboard. split; [exact Hk|]. split.
  - intros Hcase. run_handler. rewrite Hget. step.
    rewrite bool_decide_eq_true_2 by exact Hkind. step. rewrite Hlist, Hk. step.
    destruct Hcase as [Hp | (p & ps & Hp & Hroot)]; rewrite Hp; step.
    + destruct (editMessageText_reply env _ _ _ _ _) as [[]|]; reflexivity.
    + rewrite bool_decide_eq_true_2 by exact Hroot. step.
      destruct (editMessageText_reply env _ _ _ _ _) as [[]|]; reflexivity.
  - intros p ps back_text Hp Hroot Hback. run_handler. rewrite Hget. step.
    rewrite bool_decide_eq_true_2 by exact Hkind. step. rewrite Hlist, Hk, Hp. step.
    rewrite bool_decide_eq_false_2 by exact Hroot. step.
    rewrite Hback. step.
    destruct (editMessageText_reply env _ _ _ _ _) as [[]|]; reflexivity.
Qed.

Lemma drive_handler_back_row_witness :
  exists keyboard,
    get_files_keyboard sample_files 2 = Ok keyboard /\
    edited_keyboards (drive_handler (folder_env []) folder_update []).2 = [keyboard] /\
    edited_keyboards
      (drive_handler (folder_env under_root) folder_update []).2
      = [keyboard] /\
    edited_keyboards (drive_handler (folder_env under_P1) folder_update []).2 =
      [keyboard ++ [[ {| text := str "Back"; callback_data := str "drive_file_P1" |} ]]].
Proof.
  destruct (drive_handler_back_row (folder_env []) folder_update
              (sample_folder []) sample_files eq_refl eq_refl eq_refl)
    as (k1 & Hk1 & Hnone & _).
  destruct (drive_handler_back_row (folder_env under_root)
              folder_update (sample_folder under_root)
              sample_files eq_refl eq_refl eq_refl)
    as (k2 & Hk2 & Hroot & _).
  destruct (drive_handler_back_row (folder_env under_P1) folder_update
              (sample_folder under_P1) sample_files eq_refl eq_refl eq_refl)
    as (k3 & Hk3 & _ & Hback).
  exists k1. split; [exact Hk1|]. split; [|split].
  - apply Hnone. left. reflexivity.
  - assert (k2 = k1) as -> by congruence.
    apply Hroot. right. eexists _, _. split; reflexivity.
  - assert (k3 = k1) as -> by congruence.
    apply (Hback {| parent_id := str "P1" |} [ {| parent_id := str "P2" |} ] (str "Back"));
      [reflexivity | vm_compute; discriminate | reflexivity].
Defined.

(** C3. In the regular-file branch, with the item fetched again and its
    size read. Below 50,000,000 bytes the handler takes the stream path:
    it asks for the content buffer, sends no link message, and, when the
    buffer and the chat action are granted, it has signalled
    UPLOAD_DOCUMENT and sent the buffer, named after the title, as a
    document. From 50,000,000 bytes on it makes no call of the stream
    path, and, when the text and the link are there, it sends the message
    with the link. *)
Theorem drive_handler_size_threshold (env : Collaborators) (update : CallbackUpdate)
    (fetched_file file_d : GoogleDriveFile) (size : Z) :
  let cq := callback_query update in
  let query_data := replace DRIVE_FILE_PREFIX [] (data cq) in
  let chat := user_id (cq_from_user cq) in
  let locale := language_code (cq_from_user cq) in
  let ev_fetch := EvGetFile query_data in
  let ev_again := EvGetFile (id fetched_file) in
  let ev_buffer := EvGetContentIOBuffer file_d in
  let ev_action := EvSendChatAction chat (str "UPLOAD_DOCUMENT") in
  let ev_text := EvGetLocale locale DRIVE_ERROR_TOO_BIG_TEXT_ID in
  get_file_reply env [] query_data = Ok fetched_file ->
  mimeType fetched_file <> FOLDER_MIME ->
  mimeType fetched_file <> DOCUMENT_MIME ->
  get_file_reply env [ev_fetch] (id fetched_file) = Ok file_d ->
  fileSize file_d = Some size ->
  let tr := (drive_handler env update []).2 in
  (size < 50000000 ->
   [ev_fetch; ev_again; ev_buffer] `prefix_of` tr /\
   Forall (fun ev => is_message ev = false) tr /\
   (forall f,
       GetContentIOBuffer_reply env [ev_fetch; ev_again] file_d = Ok f ->
       sendChatAction_reply env [ev_fetch; ev_again; ev_buffer] chat
         (str "UPLOAD_DOCUMENT") = Ok tt ->
       [ev_fetch; ev_again; ev_buffer; ev_action;
        EvSendDocument chat (set_name f (title fetched_file))] `prefix_of` tr)) /\
  (50000000 <= size ->
   Forall (fun ev => is_stream_step ev = false) tr /\
   (forall too_big link,
       get_locale_reply env [ev_fetch; ev_again] locale DRIVE_ERROR_TOO_BIG_TEXT_ID
         = Ok too_big ->
       alternateLink file_d = Some link ->
       [ev_fetch; ev_again; ev_text;
        EvSendMessage chat (replace (PLACE_HOLDER env) link too_big) None]
         `prefix_of` tr)).
Proof.
  cbv zeta. intros Hget Hfolder Hdoc Hagain Hsize.
  assert (Hrun : forall b, (size <? SIZE_LIMIT) = b ->
            drive_handler env update [] =
            (completion ← (_ ← try_except
                 (let chat_id := user_id (cq_from_user (callback_query update)) in
                  let locale := language_code (cq_from_user (callback_query update)) in
                  if b then
                    f ← GetContentIOBuffer env file_d;
                    _ ← sendChatAction env chat_id (str "UPLOAD_DOCUMENT");
                    sendDocument env chat_id (set_name f (title fetched_file))
                  else
                    too_big ← get_locale env locale DRIVE_ERROR_TOO_BIG_TEXT_ID;
                    link ← getitem (str "alternateLink") (alternateLink file_d);
                    sendMessage env chat_id (replace (PLACE_HOLDER env) link too_big) None)
                 (fun err => log_error env (str "drive_handler") err);
               mret Next);
             match completion with Return => mret tt | Next => answer env end)
              [EvGetFile (replace DRIVE_FILE_PREFIX [] (data (callback_query update)));
               EvGetFile (id fetched_file)]).
  { intros b Hb. run_handler. rewrite Hget. step.
    rewrite bool_decide_eq_false_2 by exact Hfolder.
    rewrite bool_decide_eq_false_2 by exact Hdoc. step.
    rewrite Hagain. step. rewrite Hsize. step. rewrite Hb. reflexivity. }
  split.
  - intros Hlt. rewrite (Hrun true) by (apply Z.ltb_lt; exact Hlt). clear Hrun.
    split; [|split].
    + run_handler. branch; trace_facts.
    + run_handler. branch; trace_facts.
    + intros f Hf Haction. run_handler. step. rewrite Hf. step. rewrite Haction.
      branch; trace_facts.
  - intros Hge. rewrite (Hrun false) by (apply Z.ltb_ge; exact Hge). clear Hrun.
    split.
    + run_handler. destruct (alternateLink file_d); branch; trace_facts.
    + intros too_big link Htext Hlink. run_handler. step. rewrite Htext, Hlink.
      branch; trace_facts.
Qed.

Lemma drive_handler_size_threshold_witness :
  [EvGetFile (str "X1"); EvGetFile (str "X1");
   EvGetContentIOBuffer (sample_regular 49999999);
   EvSendChatAction 42 (str "UPLOAD_DOCUMENT");
   EvSendDocument 42 {| stream := str "X1"; name := Some (str "notes.txt") |}]
    `prefix_of` (drive_handler (file_env 49999999 (Ok tt)) file_update []).2 /\
  Forall (fun ev => is_stream_step ev = false)
    (drive_handler (file_env 60000000 (Ok tt)) file_update []).2 /\
  [EvGetFile (str "X1"); EvGetFile (str "X1");
   EvGetLocale (str "en") DRIVE_ERROR_TOO_BIG_TEXT_ID;
   EvSendMessage 42 (str "Too big: https://drive.example/X1") None]
    `prefix_of` (drive_handler (file_env 60000000 (Ok tt)) file_update []).2.
Proof.
  destruct (drive_handler_size_threshold (file_env 49999999 (Ok tt)) file_update
              (sample_regular 49999999) (sample_regular 49999999) 49999999
              eq_refl ltac:(vm_compute; discriminate) ltac:(vm_compute; discriminate)
              eq_refl eq_refl) as [Hsmall _].
  destruct (drive_handler_size_threshold (file_env 60000000 (Ok tt)) file_update
              (sample_regular 60000000) (sample_regular 60000000) 60000000
              eq_refl ltac:(vm_compute; discriminate) ltac:(vm_compute; discriminate)
              eq_refl eq_refl) as [_ Hbig].
  destruct (Hsmall ltac:(lia)) as (_ & _ & Hstream).
  destruct (Hbig ltac:(lia)) as (Hnone & Hlink).
  split; [|split].
  - exact (Hstream _ eq_refl eq_refl).
  - exact Hnone.
  - exact (Hlink _ _ eq_refl eq_refl).
Defined.

(** Two of the points at which the body of the [try] can fail: the
    second fetch, and the sending of the document. *)
Lemma file_branch_body_fetch_fails (env : Collaborators) chat locale fetched_file tr e :
  get_file_reply env tr (id fetched_file) = Raise e ->
  file_branch_body env chat locale fetched_file tr
  = (Raise e, tr ++ [EvGetFile (id fetched_file)]).
Proof. intros H. run_handler. rewrite H. reflexivity. Qed.

Lemma file_branch_body_send_fails (env : Collaborators) chat locale fetched_file
    file_d size f tr e :
  let tr1 := tr ++ [EvGetFile (id fetched_file)] in
  let tr2 := tr1 ++ [EvGetContentIOBuffer file_d] in
  let tr3 := tr2 ++ [EvSendChatAction chat (str "UPLOAD_DOCUMENT")] in
  let document := set_name f (title fetched_file) in
  get_file_reply env tr (id fetched_file) = Ok file_d ->
  fileSize file_d = Some size -> size < SIZE_LIMIT ->
  GetContentIOBuffer_reply env tr1 file_d = Ok f ->
  sendChatAction_reply env tr2 chat (str "UPLOAD_DOCUMENT") = Ok tt ->
  sendDocument_reply env tr3 chat document = Raise e ->
  file_branch_body env chat locale fetched_file tr
  = (Raise e, tr3 ++ [EvSendDocument chat document]).
Proof.
  cbv zeta. intros Hget Hsize Hlt Hbuf Hact Hsend. apply Z.ltb_lt in Hlt.
  run_handler. rewrite Hget. cbv beta iota. rewrite Hsize. cbv beta iota.
  rewrite Hlt, Hbuf. cbv beta iota. rewrite Hact. cbv beta iota.
  rewrite Hsend. reflexivity.
Qed.

(** The body of the [try] reports nothing itself. *)
Lemma file_branch_body_reports (env : Collaborators) chat locale fetched_file tr :
  reports (file_branch_body env chat locale fetched_file tr).2 = reports tr.
Proof.
  unfold reports. run_handler. cases; cbn [snd];
    rewrite ?omap_app; cbn [omap list_omap]; rewrite ?app_nil_r; reflexivity.
Qed.

(** C6 (as the code has it). In the regular-file branch, an exception
    that is an instance of [Exception], raised by the body of the [try]
    at whichever call, is caught: the handler goes on with one call to [log_error] with the
    header drive_handler and that exception, and then, if [log_error]
    returns, with [answer], whose outcome is the handler's. Nothing else
    is called after the failure, so no message goes to the user, and the
    exception is the one report of the trace. *)
Theorem drive_handler_file_failure_caught (env : Collaborators)
    (update : CallbackUpdate) (fetched_file : GoogleDriveFile) (e : Exn)
    (tr1 : list Event) :
  let cq := callback_query update in
  let query_data := replace DRIVE_FILE_PREFIX [] (data cq) in
  let chat := user_id (cq_from_user cq) in
  let locale := language_code (cq_from_user cq) in
  let ev_report := EvLogError (str "drive_handler") e in
  get_file_reply env [] query_data = Ok fetched_file ->
  mimeType fetched_file <> FOLDER_MIME ->
  mimeType fetched_file <> DOCUMENT_MIME ->
  file_branch_body env chat locale fetched_file [EvGetFile query_data]
    = (Raise e, tr1) ->
  is_Exception e = true ->
  drive_handler env update [] =
    match log_error_reply env tr1 (str "drive_handler") e with
    | Ok _ => (answer_reply env (tr1 ++ [ev_report]), tr1 ++ [ev_report; EvAnswer])
    | Raise e' => (Raise e', tr1 ++ [ev_report])
    end /\
  reports (drive_handler env update []).2 = [(str "drive_handler", e)].
Proof.
  cbv zeta. intros Hget Hfolder Hdoc Hbody Hexc.
  assert (Hnone : reports tr1 = []).
  { change tr1 with (Raise (A := unit) e, tr1).2. rewrite <- Hbody.
    rewrite file_branch_body_reports. reflexivity. }
  assert (Hrun : drive_handler env update [] =
    match log_error_reply env tr1 (str "drive_handler") e with
    | Ok _ => (answer_reply env (tr1 ++ [EvLogError (str "drive_handler") e]),
               tr1 ++ [EvLogError (str "drive_handler") e; EvAnswer])
    | Raise e' => (Raise e', tr1 ++ [EvLogError (str "drive_handler") e])
    end).
  { cbv [drive_handler dispatch try_except get_file answer log_error call
         mbind M_bind mret M_ret].
    rewrite Hget. step.
    rewrite bool_decide_eq_false_2 by exact Hfolder.
    rewrite bool_decide_eq_false_2 by exact Hdoc. step.
    rewrite Hbody. step. rewrite Hexc. step.
    destruct (log_error_reply env tr1 (str "drive_handler") e); step;
      [rewrite <- app_assoc|]; reflexivity. }
  split; [exact Hrun|].
  rewrite Hrun. unfold reports in *.
  destruct (log_error_reply env tr1 (str "drive_handler") e); cbn [snd];
    rewrite omap_app, Hnone; reflexivity.
Qed.

Lemma drive_handler_file_failure_caught_witness :
  let tr1 :=
    [EvGetFile (str "X1"); EvGetFile (str "X1");
     EvGetContentIOBuffer (sample_regular 1000);
     EvSendChatAction 42 (str "UPLOAD_DOCUMENT");
     EvSendDocument 42 {| stream := str "X1"; name := Some (str "notes.txt") |}] in
  let ev_report :=
    EvLogError (str "drive_handler") (CollaboratorError (str "NetworkError")) in
  drive_handler (file_env 1000 failing_send) file_update [] =
    (Ok tt, tr1 ++ [ev_report; EvAnswer]) /\
  reports (drive_handler (file_env 1000 failing_send) file_update []).2 =
    [(str "drive_handler", CollaboratorError (str "NetworkError"))].
Proof.
  exact (drive_handler_file_failure_caught (file_env 1000 failing_send) file_update
           (sample_regular 1000) (CollaboratorError (str "NetworkError")) _
           eq_refl ltac:(vm_compute; discriminate) ltac:(vm_compute; discriminate)
           eq_refl eq_refl).
Defined.

(** Without the restriction to instances of [Exception] the statement
    fails: a [KeyboardInterrupt] raised by [sendDocument] is not caught by
    [except Exception], so it is not reported. *)
Lemma drive_handler_file_failure_not_every_exception :
  ~ (forall (env : Collaborators) (update : CallbackUpdate)
            (fetched_file : GoogleDriveFile) (e : Exn) (tr1 : list Event),
        let cq := callback_query update in
        let query_data := replace DRIVE_FILE_PREFIX [] (data cq) in
        let chat := user_id (cq_from_user cq) in
        let locale := language_code (cq_from_user cq) in
        let ev_report := EvLogError (str "drive_handler") e in
        get_file_reply env [] query_data = Ok fetched_file ->
        mimeType fetched_file <> FOLDER_MIME ->
        mimeType fetched_file <> DOCUMENT_MIME ->
        file_branch_body env chat locale fetched_file [EvGetFile query_data]
          = (Raise e, tr1) ->
        drive_handler env update [] =
          match log_error_reply env tr1 (str "drive_handler") e with
          | Ok _ => (answer_reply env (tr1 ++ [ev_report]),
                     tr1 ++ [ev_report; EvAnswer])
          | Raise e' => (Raise e', tr1 ++ [ev_report])
          end /\
        reports (drive_handler env update []).2 = [(str "drive_handler", e)]).
Proof.
  intros Hall.
  destruct (Hall (file_env 1000 interrupted_send) file_update (sample_regular 1000)
              (SystemSignal (str "KeyboardInterrupt"))
              [EvGetFile (str "X1"); EvGetFile (str "X1");
               EvGetContentIOBuffer (sample_regular 1000);
               EvSendChatAction 42 (str "UPLOAD_DOCUMENT");
               EvSendDocument 42
                 {| stream := str "X1"; name := Some (str "notes.txt") |}]
              eq_refl ltac:(vm_compute; discriminate) ltac:(vm_compute; discriminate)
              eq_refl) as [_ Hreports].
  assert (Hnone : reports (drive_handler (file_env 1000 interrupted_send)
                             file_update []).2 = [])
    by (vm_compute; reflexivity).
  rewrite Hnone in Hreports. discriminate Hreports.
Qed.

(** ** The acknowledgement of the callback *)

(** In the folder branch, when the listing fails, [answer] is not called,
    whatever the collaborators do next. *)
Lemma drive_handler_failed_listing (env : Collaborators) (update : CallbackUpdate)
    (fetched_file : GoogleDriveFile) :
  let query_data := replace DRIVE_FILE_PREFIX [] (data (callback_query update)) in
  get_file_reply env [] query_data = Ok fetched_file ->
  mimeType fetched_file = FOLDER_MIME ->
  list_files_reply env [EvGetFile query_data] (Some (id fetched_file)) = Ok None ->
  Forall (fun ev => ev <> EvAnswer) (drive_handler env update []).2.
Proof.
  cbv zeta. intros Hget Hkind Hlist. run_handler. rewrite Hget. step.
  rewrite bool_decide_eq_true_2 by exact Hkind. step. rewrite Hlist.
  branch; repeat constructor; discriminate.
Qed.

(** X19. On every other path on which [drive_handler] returns, its last
    call is [answer]: a run that returns without it is a run of the
    folder branch in which the listing failed. *)
Lemma drive_handler_answers_unless_listing_failed (env : Collaborators)
    (update : CallbackUpdate) :
  let query_data := replace DRIVE_FILE_PREFIX [] (data (callback_query update)) in
  (drive_handler env update []).1 = Ok tt ->
  last (drive_handler env update []).2 = Some EvAnswer \/
  exists fetched_file,
    get_file_reply env [] query_data = Ok fetched_file /\
    mimeType fetched_file = FOLDER_MIME /\
    list_files_reply env [EvGetFile query_data] (Some (id fetched_file)) = Ok None.
Proof.
  cbv zeta. run_handler.
  destruct (get_file_reply env [] _) as [fetched_file|] eqn:Hget; step;
    [|discriminate].
  destruct (bool_decide (mimeType fetched_file = FOLDER_MIME)) eqn:Hkind.
  - apply bool_decide_eq_true_1 in Hkind.
    destruct (list_files_reply env _ _) as [[file_list|]|] eqn:Hlist; step.
    + cases; cbn [fst snd]; intros H; try discriminate H; left; reflexivity.
    + intros _. right. exists fetched_file. auto.
    + discriminate.
  - cases; cbn [fst snd]; intros H; try discriminate H; left; reflexivity.
Qed.

(** C4 (what the code does where the claim fails). A folder whose listing
    fails: the handler edits the message to the error text and returns,
    and the callback query has not been answered. *)
Theorem drive_handler_failed_listing_unanswered :
  drive_handler failed_listing_env folder_update [] =
    (Ok tt,
     [EvGetFile (str "F1"); EvListFiles (Some (str "F1"));
      EvGetLocale (str "en") DRIVE_ERROR_DEVS_TEXT_ID;
      EvEditMessageText 42 7 (str "Service unavailable") None]) /\
  ~ In EvAnswer (drive_handler failed_listing_env folder_update []).2.
Proof.
  split; [vm_compute; reflexivity|].
  vm_compute. intros H. repeat (destruct H as [H|H]; [discriminate H|]). exact H.
Qed.

(** The same folder with its children listed: the callback is answered. *)
Example drive_handler_listing_answered :
  last (drive_handler (folder_env under_P1) folder_update []).2 = Some EvAnswer.
Proof. vm_compute. reflexivity. Qed.

(** * Further properties of the module *)

(** ** The rows of the grid *)




(** ** Widths that are not positive *)

(** X2. With the width 0 the builder raises [ZeroDivisionError] as soon
    as there is an item; without items it returns the empty grid, for
    every width. *)
Theorem get_files_keyboard_zero_width (file_list : list GoogleDriveFile) (row_len : Z) :
  get_files_keyboard [] row_len = Ok [] /\
  (file_list <> [] -> get_files_keyboard file_list 0 = Raise ZeroDivisionError).
Proof.
  split; [reflexivity|].
  destruct file_list as [|file rest]; [congruence | reflexivity].
Qed.

Lemma get_files_keyboard_zero_width_witness :
  get_files_keyboard [] 0 = Ok [] /\
  get_files_keyboard sample_files 0 = Raise ZeroDivisionError.
Proof.
  destruct (get_files_keyboard_zero_width sample_files 0) as [Hnil Hraise].
  split; [exact Hnil | apply Hraise; discriminate].
Defined.

Lemma py_append_at_first {A} (row0 : list A) (rest : list (list A)) x k :
  k = - Z.of_nat (length (row0 :: rest)) ->
  py_append_at (row0 :: rest) k x = Ok ((row0 ++ [x]) :: rest).
Proof.
  intros ->. unfold py_append_at, py_index.
  set (n := Z.of_nat (length (row0 :: rest))).
  assert (Hn : 0 < n) by (subst n; simpl length; lia).
  replace (- n <? 0) with true by (symmetry; apply Z.ltb_lt; lia).
  replace (- n + n) with 0 by lia.
  replace (0 <? n) with true by (symmetry; apply Z.ltb_lt; lia).
  reflexivity.
Qed.

Lemma pile_inv_nil w : 0 < w -> pile_inv w 0 [].
Proof.
  intros Hw. split; [|split; [|split]].
  - symmetry. apply ceil_div_unique; simpl; lia.
  - intros j row Hl. rewrite lookup_nil in Hl. discriminate.
  - intros row Hl. rewrite lookup_nil in Hl. discriminate.
  - reflexivity.
Qed.

Lemma pile_inv_new_row w i (keyboard : Keyboard) b :
  0 < w -> 0 <= i -> i mod w = 0 ->
  pile_inv w i keyboard -> pile_inv w (i + 1) (keyboard ++ [[b]]).
Proof.
  intros Hw Hi Hm (Hlen & Hones & Hfirst & Htotal).
  destruct (ceil_div_new_row w i Hw Hi Hm) as [Hc Hc'].
  split; [|split; [|split]].
  - rewrite length_app. simpl. lia.
  - intros j row Hl. apply lookup_app_Some in Hl as [Hl | [_ Hl]].
    + eapply Hones; eauto.
    + apply list_lookup_singleton_Some in Hl as [_ <-]. reflexivity.
  - intros row0 Hl. apply lookup_app_Some in Hl as [Hl | [Hge Hl]].
    + rewrite (Hfirst row0 Hl). lia.
    + apply list_lookup_singleton_Some in Hl as [_ <-].
      destruct keyboard as [|r keyboard]; [|simpl in Hge; lia].
      simpl in Hlen, Htotal. simpl length. lia.
  - rewrite concat_app, length_app. simpl. lia.
Qed.

Lemma pile_inv_first_row w i (keyboard : Keyboard) b :
  0 < w -> 0 <= i -> i mod w <> 0 -> pile_inv w i keyboard ->
  exists row0 rest,
    keyboard = row0 :: rest /\
    i / - w = - Z.of_nat (length keyboard) /\
    pile_inv w (i + 1) ((row0 ++ [b]) :: rest).
Proof.
  intros Hw Hi Hm (Hlen & Hones & Hfirst & Htotal).
  destruct (ceil_div_same_row w i Hw Hi Hm) as [Hc Hc'].
  pose proof (Z.div_pos i w Hi Hw) as Hq.
  destruct keyboard as [|row0 rest]; [simpl in Hlen; lia|].
  exists row0, rest. split; [reflexivity|]. split.
  - rewrite Z.div_opp_r_nz by (try exact Hm; lia). lia.
  - split; [|split; [|split]].
    + simpl length in *. lia.
    + intros j row Hl. apply (Hones j row). exact Hl.
    + intros r Hl. simpl in Hl. inversion Hl; subst r.
      rewrite length_app. simpl length. rewrite Nat2Z.inj_add.
      rewrite (Hfirst row0 eq_refl). lia.
    + simpl concat in *. rewrite !length_app in *. simpl length. lia.
Qed.

Lemma get_files_keyboard_loop_negative w :
  0 < w ->
  forall (file_list : list GoogleDriveFile) i (keyboard : Keyboard),
    0 <= i -> pile_inv w i keyboard ->
    exists keyboard',
      get_files_keyboard_loop (- w) i file_list keyboard = Ok keyboard' /\
      pile_inv w (i + Z.of_nat (length file_list)) keyboard'.
Proof.
  intros Hw. assert (Hw0 : (- w =? 0) = false) by (apply Z.eqb_neq; lia).
  induction file_list as [|file rest IH]; intros i keyboard Hi Hinv.
  - exists keyboard. simpl. rewrite Z.add_0_r. auto.
  - cbn [get_files_keyboard_loop]. unfold py_mod, py_floordiv. rewrite Hw0.
    cbn [mbind Outcome_bind].
    replace (i + Z.of_nat (length (file :: rest)))
      with (i + 1 + Z.of_nat (length rest)) by (simpl length; lia).
    destruct (i mod - w =? 0) eqn:Hm.
    + apply Z.eqb_eq in Hm.
      assert (i mod w = 0) as Hm'.
      { apply (Z.mod_opp_r_z i (- w)) in Hm; [|lia].
        rewrite Z.opp_involutive in Hm. exact Hm. }
      apply IH; [lia | apply pile_inv_new_row; assumption].
    + apply Z.eqb_neq in Hm.
      assert (i mod w <> 0) as Hm'.
      { intros H. apply Hm. apply Z.mod_opp_r_z; [lia | exact H]. }
      destruct (pile_inv_first_row w i keyboard (keyboard_button_of file) Hw Hi Hm' Hinv)
        as (row0 & tl & -> & Hq & Hinv').
      rewrite (py_append_at_first row0 tl) by exact Hq.
      apply IH; [lia | exact Hinv'].
Qed.

(** X3. A negative width raises nothing, and it does not give a grid of
    that width either. A new row starts at every multiple of the width;
    elsewhere [i // row_len] is minus the number of rows built so far,
    which Python reads as the first row. So the result has
    ceil(N / -row_len) rows, every row after the first has one button,
    and the first row has all the other buttons. *)
Theorem get_files_keyboard_negative_width (file_list : list GoogleDriveFile)
    (row_len : Z) :
  row_len < 0 ->
  exists keyboard,
    get_files_keyboard file_list row_len = Ok keyboard /\
    let n := Z.of_nat (length file_list) in
    Z.of_nat (length keyboard) = ceil_div n (- row_len) /\
    (forall (j : nat) row, keyboard !! S j = Some row -> length row = 1%nat) /\
    (forall row0,
        keyboard !! 0%nat = Some row0 ->
        Z.of_nat (length row0) = n - (ceil_div n (- row_len) - 1)) /\
    Z.of_nat (length (concat keyboard)) = n.
Proof.
  intros Hw.
  destruct (get_files_keyboard_loop_negative (- row_len) ltac:(lia) file_list 0 [])
    as (k & Hrun & Hinv); [lia | apply pile_inv_nil; lia |].
  rewrite Z.opp_involutive in Hrun.
  exists k. split; [exact Hrun|]. exact Hinv.
Qed.

Lemma get_files_keyboard_negative_width_witness :
  exists keyboard,
    get_files_keyboard (sample_files ++ sample_files) (-2) = Ok keyboard /\
    let n := Z.of_nat (length (sample_files ++ sample_files)) in
    Z.of_nat (length keyboard) = ceil_div n (- -2) /\
    (forall (j : nat) row, keyboard !! S j = Some row -> length row = 1%nat) /\
    (forall row0,
        keyboard !! 0%nat = Some row0 ->
        Z.of_nat (length row0) = n - (ceil_div n (- -2) - 1)) /\
    Z.of_nat (length (concat keyboard)) = n.
Proof.
  apply (get_files_keyboard_negative_width (sample_files ++ sample_files) (-2)). lia.
Defined.

(** ** The extension that selects the icon *)

Lemma last_chars_app (n : nat) (a b : list N) :
  (length b <= n)%nat ->
  last_chars n (a ++ b) = last_chars (n - length b) a ++ b.
Proof.
  intros Hb. unfold last_chars. rewrite length_app.
  replace (length a + length b - n)%nat with (length a - (n - length b))%nat by lia.
  apply drop_app_le. lia.
Qed.

Lemma last_chars_length (n : nat) (s : list N) :
  length (last_chars n s) = Nat.min n (length s).
Proof. unfold last_chars. rewrite length_drop. lia. Qed.

(** Splitting distributes over a separator. *)
Lemma split_app (sep : N) (a b : list N) :
  split sep (a ++ sep :: b) = split sep a ++ split sep b.
Proof.
  induction a as [|c a IH]; simpl.
  - rewrite N.eqb_refl. reflexivity.
  - destruct (N.eqb c sep); rewrite IH; [reflexivity|].
    pose proof (split_nonempty sep a) as Hne.
    destruct (split sep a) as [|w ws]; [congruence | reflexivity].
Qed.

Lemma split_no_sep (sep : N) (b : list N) :
  forallb (fun c => negb (N.eqb c sep)) b = true -> split sep b = [b].
Proof.
  induction b as [|c b IH]; intros Hb; [reflexivity|].
  simpl in Hb. apply andb_true_iff in Hb as [Hc Hb].
  simpl. apply negb_true_iff in Hc. rewrite Hc, (IH Hb). reflexivity.
Qed.

(** The key looked up for a name that ends in a dot and at most four
    characters without a dot: these characters. *)
Lemma extension_key (stem ext : list N) :
  forallb (fun c => negb (N.eqb c DOT)) ext = true ->
  (length ext <= 4)%nat ->
  last_item (split DOT (last_chars 5 (stem ++ DOT :: ext))) = ext.
Proof.
  intros Hext Hlen.
  rewrite last_chars_app by (simpl; lia).
  rewrite split_app, (split_no_sep DOT ext Hext).
  unfold last_item. rewrite last_snoc. reflexivity.
Qed.

(** [formats] holds the entries [formats_items]. *)
Lemma formats_to_list : map_to_list formats = formats_items.
Proof. vm_compute. reflexivity. Qed.

Lemma formats_entries (key : list N) (v : PyVal) :
  formats !! key = Some v -> In (key, v) formats_items.
Proof.
  intros H. rewrite <- formats_to_list.
  apply (proj1 (list_elem_of_In _ _)), (proj2 (elem_of_map_to_list _ _ _)). exact H.
Qed.

(** X4. For an item that is not a folder and whose name ends in a dot
    followed by at most four characters without a dot, the icon is the
    entry of [formats] for these characters, and the page glyph when
    there is none. *)
Theorem icon_of_extension (file : GoogleDriveFile) (stem ext : list N) :
  mimeType file <> FOLDER_MIME ->
  title file = stem ++ DOT :: ext ->
  forallb (fun c => negb (N.eqb c DOT)) ext = true ->
  (length ext <= 4)%nat ->
  icon_of file = dict_get formats ext (PStr ICON_PAGE).
Proof.
  intros Hkind Htitle Hext Hlen.
  rewrite icon_of_file by exact Hkind.
  rewrite Htitle, extension_key by assumption. reflexivity.
Qed.

Lemma icon_of_extension_witness :
  icon_of (sample_file "id4" "archive.tar.zip")
  = dict_get formats (str "zip") (PStr ICON_PAGE).
Proof.
  apply (icon_of_extension (sample_file "id4" "archive.tar.zip") (str "archive.tar"));
    [vm_compute; discriminate | reflexivity | reflexivity | vm_compute; lia].
Defined.

(** No key of [formats] has five characters. *)
Lemma formats_five (key : list N) : length key = 5%nat -> formats !! key = None.
Proof.
  intros Hlen. destruct (formats !! key) as [v|] eqn:Hv; [|reflexivity].
  apply formats_entries in Hv.
  exfalso. cbv [formats_items In] in Hv.
  repeat (destruct Hv as [Hv|Hv];
          [inversion Hv; subst key; discriminate Hlen|]).
  exact Hv.
Qed.

(** X5. An item that is not a folder, whose name has at least five
    characters and no dot among the last five, gets the page glyph: so
    does every extension of five characters or more. *)
Theorem icon_of_no_dot (file : GoogleDriveFile) :
  mimeType file <> FOLDER_MIME ->
  (5 <= length (title file))%nat ->
  forallb (fun c => negb (N.eqb c DOT)) (last_chars 5 (title file)) = true ->
  icon_of file = PStr ICON_PAGE.
Proof.
  intros Hkind Hlen Hdot.
  rewrite icon_of_file by exact Hkind.
  rewrite (split_no_sep DOT _ Hdot).
  change (last_item [last_chars 5 (title file)]) with (last_chars 5 (title file)).
  unfold dict_get. rewrite formats_five; [reflexivity|].
  rewrite last_chars_length. lia.
Qed.

Lemma icon_of_no_dot_witness :
  icon_of (sample_file "id5" "slides.xhtml") = PStr ICON_PAGE.
Proof.
  apply (icon_of_no_dot (sample_file "id5" "slides.xhtml"));
    [vm_compute; discriminate | vm_compute; lia | reflexivity].
Defined.

(** X6. Every label has one of two forms: one of the seven glyphs, two
    spaces and the name; or the number 10, one space and the name. The
    second form is that of an item that is not a folder and whose
    extension key is b or space-a, the keys of the malformed entry that
    no later entry replaces. *)
Theorem keyboard_button_label (file : GoogleDriveFile) :
  (exists glyph,
      In glyph [0x1F4D5; 0x1F4C4; 0x1F4F7; 0x1F4E6; 0x2699; 0x1F4BB; 0x1F5C2]%N /\
      text (keyboard_button_of file) = glyph :: str "  " ++ title file) \/
  (text (keyboard_button_of file) = str "10 " ++ title file /\
   mimeType file <> FOLDER_MIME /\
   let key := last_item (split DOT (last_chars 5 (title file))) in
   key = str " a" \/ key = str "b").
Proof.
  cbn [keyboard_button_of text]. unfold icon_of.
  destruct (bool_decide (mimeType file = FOLDER_MIME)) eqn:Hkind.
  - left. exists 0x1F5C2%N. split; [simpl; tauto | reflexivity].
  - apply bool_decide_eq_false_1 in Hkind. cbv zeta.
    set (key := last_item (split DOT (last_chars 5 (title file)))).
    unfold dict_get. destruct (formats !! key) as [v|] eqn:Hv.
    + apply formats_entries in Hv. cbv [formats_items In] in Hv.
      repeat (destruct Hv as [Hv|Hv];
              [inversion Hv as [[Hkey Hval]]; clear Hv; cbn [default py_format];
               first [ left; eexists; split; [|reflexivity]; simpl; tauto
                     | right; split; [reflexivity|]; split; [exact Hkind|];
                       first [left; reflexivity | right; reflexivity] ] |]).
      destruct Hv.
    + left. exists 0x1F4C4%N. split; [simpl; tauto | reflexivity].
Qed.

Lemma formats_b : formats !! str "b" = Some (PInt 10).
Proof. vm_compute. reflexivity. Qed.

Lemma formats_c : formats !! str "c" = Some (PStr ICON_COMPUTER).
Proof. vm_compute. reflexivity. Qed.

(** X7. An item that is not a folder and is named something.b is
    labelled with the number, 10 something.b; an item named something.c
    gets the glyph of the source files, because the last dictionary of
    [formats] replaces the number that an earlier one gave to c. *)
Theorem keyboard_button_malformed_entry (file : GoogleDriveFile) (stem : list N) :
  mimeType file <> FOLDER_MIME ->
  (title file = stem ++ str ".b" ->
   text (keyboard_button_of file) = str "10 " ++ title file) /\
  (title file = stem ++ str ".c" ->
   text (keyboard_button_of file) = 0x1F4BB%N :: str "  " ++ title file).
Proof.
  intros Hkind. cbn [keyboard_button_of text].
  split; intros Htitle.
  - rewrite (icon_of_extension file stem (str "b") Hkind Htitle eq_refl)
      by (vm_compute; lia).
    unfold dict_get. rewrite formats_b. reflexivity.
  - rewrite (icon_of_extension file stem (str "c") Hkind Htitle eq_refl)
      by (vm_compute; lia).
    unfold dict_get. rewrite formats_c. reflexivity.
Qed.

Lemma keyboard_button_malformed_entry_witness :
  text (keyboard_button_of (sample_file "id6" "prog.b")) = str "10 prog.b" /\
  text (keyboard_button_of (sample_file "id7" "prog.c"))
  = 0x1F4BB%N :: str "  prog.c".
Proof.
  split.
  - apply (proj1 (keyboard_button_malformed_entry (sample_file "id6" "prog.b")
                    (str "prog") ltac:(vm_compute; discriminate))).
    reflexivity.
  - apply (proj2 (keyboard_button_malformed_entry (sample_file "id7" "prog.c")
                    (str "prog") ltac:(vm_compute; discriminate))).
    reflexivity.
Defined.

(** ** drive in a private chat *)

(** X8. In a private chat, when the root listing has items, [drive]
    builds their grid with rows of three and sends it with the header
    text: after the access check, the listing and the text lookup, the
    one message is its last call, and its outcome is the handler's. *)
Theorem drive_private_listing (env : Collaborators) (update : CommandUpdate)
    (file : GoogleDriveFile) (rest : list GoogleDriveFile) (header : list N) :
  let chat := chat_id (message update) in
  let locale := language_code (from_user (message update)) in
  let ev_log := EvCheckLog update (str "drive") in
  let ev_list := EvListFiles None in
  let ev_text := EvGetLocale locale DRIVE_HEADER_TEXT_ID in
  0 <= chat ->
  check_log_reply env [] update (str "drive") = Ok tt ->
  list_files_reply env [ev_log] None = Ok (Some (file :: rest)) ->
  get_locale_reply env [ev_log; ev_list] locale DRIVE_HEADER_TEXT_ID = Ok header ->
  exists keyboard,
    get_files_keyboard (file :: rest) 3 = Ok keyboard /\
    Z.of_nat (length keyboard) = ceil_div (Z.of_nat (length (file :: rest))) 3 /\
    concat keyboard = List.map keyboard_button_of (file :: rest) /\
    drive env update [] =
      (sendMessage_reply env [ev_log; ev_list; ev_text] chat header (Some keyboard),
       [ev_log; ev_list; ev_text; EvSendMessage chat header (Some keyboard)]).
Proof.
  cbv zeta. intros Hchat Hlog Hlist Htext.
  destruct (get_files_keyboard_spec (file :: rest) 3 ltac:(lia))
    as (keyboard & Hk & [Hlen _] & Hcat).
  exists keyboard. split; [exact Hk|]. split; [exact Hlen|]. split; [exact Hcat|].
  apply Z.ltb_ge in Hchat.
  run_handler. rewrite Hlog. step. rewrite Hchat, Hlist. step.
  rewrite Hk. step. rewrite Htext. reflexivity.
Qed.

Lemma drive_private_listing_witness :
  exists keyboard,
    get_files_keyboard sample_files 3 = Ok keyboard /\
    Z.of_nat (length keyboard) = 1 /\
    concat keyboard = List.map keyboard_button_of sample_files /\
    drive (listing_env (Some sample_files)) private_update [] =
      (Ok tt,
       [EvCheckLog private_update (str "drive"); EvListFiles None;
        EvGetLocale (str "en") DRIVE_HEADER_TEXT_ID;
        EvSendMessage 42 (str "Drive") (Some keyboard)]).
Proof.
  exact (drive_private_listing (listing_env (Some sample_files)) private_update
           (sample_file "id1" "report.pdf")
           [sample_file "id2" "photo.jpg"; sample_file "id3" "notes.txt"]
           (str "Drive") ltac:(vm_compute; discriminate) eq_refl eq_refl eq_refl).
Defined.

(** X9. In a private chat, when the root listing fails ([None]) or is
    empty, [drive] sends the error text and no keyboard. *)
Theorem drive_private_no_listing (env : Collaborators) (update : CommandUpdate)
    (listing : option (list GoogleDriveFile)) (error_text : list N) :
  let chat := chat_id (message update) in
  let locale := language_code (from_user (message update)) in
  let ev_log := EvCheckLog update (str "drive") in
  let ev_list := EvListFiles None in
  let ev_text := EvGetLocale locale DRIVE_ERROR_DEVS_TEXT_ID in
  0 <= chat ->
  check_log_reply env [] update (str "drive") = Ok tt ->
  list_files_reply env [ev_log] None = Ok listing ->
  listing = None \/ listing = Some [] ->
  get_locale_reply env [ev_log; ev_list] locale DRIVE_ERROR_DEVS_TEXT_ID
    = Ok error_text ->
  drive env update [] =
    (sendMessage_reply env [ev_log; ev_list; ev_text] chat error_text None,
     [ev_log; ev_list; ev_text; EvSendMessage chat error_text None]).
Proof.
  cbv zeta. intros Hchat Hlog Hlist Hcase Htext. apply Z.ltb_ge in Hchat.
  run_handler. rewrite Hlog. step. rewrite Hchat, Hlist. step.
  destruct Hcase as [-> | ->]; step; rewrite Htext; reflexivity.
Qed.

Lemma drive_private_no_listing_witness :
  drive (listing_env None) private_update [] =
    (Ok tt,
     [EvCheckLog private_update (str "drive"); EvListFiles None;
      EvGetLocale (str "en") DRIVE_ERROR_DEVS_TEXT_ID;
      EvSendMessage 42 (str "Service unavailable") None]) /\
  drive (listing_env (Some [])) private_update [] =
    (Ok tt,
     [EvCheckLog private_update (str "drive"); EvListFiles None;
      EvGetLocale (str "en") DRIVE_ERROR_DEVS_TEXT_ID;
      EvSendMessage 42 (str "Service unavailable") None]).
Proof.
  split.
  - exact (drive_private_no_listing (listing_env None) private_update None
             (str "Service unavailable") ltac:(vm_compute; discriminate)
             eq_refl eq_refl (or_introl eq_refl) eq_refl).
  - exact (drive_private_no_listing (listing_env (Some [])) private_update (Some [])
             (str "Service unavailable") ltac:(vm_compute; discriminate)
             eq_refl eq_refl (or_intror eq_refl) eq_refl).
Defined.

(** X10. Whatever the collaborators do, [drive] calls nothing but the
    access check, the text lookup, the root listing and [sendMessage];
    it sends at most one message, as its last call, and exactly one when
    it returns. *)
Theorem drive_calls (env : Collaborators) (update : CommandUpdate) :
  let run := drive env update [] in
  Forall (fun ev => drive_may_call ev = true) run.2 /\
  (List.filter is_message run.2 = [] \/
   exists before ev,
     run.2 = before ++ [ev] /\ List.filter is_message before = [] /\
     is_message ev = true) /\
  (run.1 = Ok tt -> length (List.filter is_message run.2) = 1%nat).
Proof.
  cbv zeta. run_handler. cases; cbn [fst snd];
    (split; [repeat constructor|]);
    (split; [|first [intros H; discriminate H | reflexivity]]);
    first [ left; reflexivity
          | right;
            match goal with
            | |- exists before ev, ?tr = _ /\ _ =>
                exists (removelast tr), (List.last tr EvAnswer);
                split; [reflexivity | split; reflexivity]
            end ].
Qed.

(** ** drive_handler: the first fetch and the token *)

(** X11. A press on a button whose callback data is drive_file_ followed
    by an identifier in which drive_file_ does not occur (the buttons of
    [get_files_keyboard] and the back button are made so) fetches that
    identifier first; if the fetch raises, the exception leaves the
    handler and nothing else is called: no report, no answer. *)
Theorem drive_handler_fetches_target (env : Collaborators) (update : CallbackUpdate)
    (target : list N) :
  data (callback_query update) = DRIVE_FILE_PREFIX ++ target ->
  ~ contains DRIVE_FILE_PREFIX target ->
  (exists later, (drive_handler env update []).2 = EvGetFile target :: later) /\
  (forall e,
      get_file_reply env [] target = Raise e ->
      drive_handler env update [] = (Raise e, [EvGetFile target])).
Proof.
  intros Hdata Hfree.
  assert (Hq : replace DRIVE_FILE_PREFIX [] (data (callback_query update)) = target).
  { rewrite Hdata, replace_nonempty by exact DRIVE_FILE_PREFIX_nonempty.
    rewrite replace_scan_head by exact DRIVE_FILE_PREFIX_nonempty.
    apply remove_scan_absent. exact Hfree. }
  split.
  - run_handler. rewrite Hq. cases; cbn [snd]; eexists; reflexivity.
  - intros e He. run_handler. rewrite Hq. step. rewrite He. reflexivity.
Qed.

Lemma drive_handler_fetches_target_witness :
  (exists later,
      (drive_handler unreachable_env file_update []).2 = EvGetFile (str "X1") :: later) /\
  drive_handler unreachable_env file_update [] =
    (Raise (CollaboratorError (str "ApiRequestError")), [EvGetFile (str "X1")]).
Proof.
  assert (Hfree : ~ contains DRIVE_FILE_PREFIX (str "X1")).
  { intros Hc. apply (containsb_spec _ DRIVE_FILE_PREFIX_nonempty) in Hc.
    vm_compute in Hc. discriminate Hc. }
  destruct (drive_handler_fetches_target unreachable_env file_update (str "X1")
              eq_refl Hfree) as [Hfirst Hraise].
  split; [exact Hfirst | exact (Hraise _ eq_refl)].
Defined.

(** ** drive_handler: the online document *)

Lemma DOCUMENT_MIME_not_folder : DOCUMENT_MIME <> FOLDER_MIME.
Proof. vm_compute. discriminate. Qed.

(** X12. For an online document the handler never takes the stream path
    and never fetches the item again, whatever the collaborators do; and
    when the text lookup returns and the export links have a PDF entry,
    it sends that link in the text and then answers the callback. *)
Theorem drive_handler_document (env : Collaborators) (update : CallbackUpdate)
    (fetched_file : GoogleDriveFile) :
  let cq := callback_query update in
  let query_data := replace DRIVE_FILE_PREFIX [] (data cq) in
  let chat := user_id (cq_from_user cq) in
  let locale := language_code (cq_from_user cq) in
  let ev_fetch := EvGetFile query_data in
  let ev_text := EvGetLocale locale DRIVE_ERROR_GFILE_TEXT_ID in
  get_file_reply env [] query_data = Ok fetched_file ->
  mimeType fetched_file = DOCUMENT_MIME ->
  Forall (fun ev => is_stream_step ev = false) (drive_handler env update []).2 /\
  List.filter is_drive_call (drive_handler env update []).2 = [ev_fetch] /\
  (forall gfile_text links pdf,
      get_locale_reply env [ev_fetch] locale DRIVE_ERROR_GFILE_TEXT_ID = Ok gfile_text ->
      exportLinks fetched_file = Some links ->
      links !! str "application/pdf" = Some pdf ->
      let ev_send :=
        EvSendMessage chat (replace (PLACE_HOLDER env) pdf gfile_text) None in
      sendMessage_reply env [ev_fetch; ev_text] chat
        (replace (PLACE_HOLDER env) pdf gfile_text) None = Ok tt ->
      drive_handler env update [] =
        (answer_reply env [ev_fetch; ev_text; ev_send],
         [ev_fetch; ev_text; ev_send; EvAnswer])).
Proof.
  cbv zeta. intros Hget Hkind.
  assert (Hnot : mimeType fetched_file <> FOLDER_MIME).
  { rewrite Hkind. exact DOCUMENT_MIME_not_folder. }
  split; [|split].
  - run_handler. rewrite Hget. step.
    rewrite bool_decide_eq_false_2 by exact Hnot.
    rewrite bool_decide_eq_true_2 by exact Hkind.
    cases; cbn [snd]; repeat constructor.
  - run_handler. rewrite Hget. step.
    rewrite bool_decide_eq_false_2 by exact Hnot.
    rewrite bool_decide_eq_true_2 by exact Hkind.
    cases; reflexivity.
  - intros gfile_text links pdf Htext Hlinks Hpdf Hsend.
    run_handler. rewrite Hget. step.
    rewrite bool_decide_eq_false_2 by exact Hnot.
    rewrite bool_decide_eq_true_2 by exact Hkind. step.
    rewrite Htext. step. rewrite Hlinks. step. rewrite Hpdf. step.
    rewrite Hsend. reflexivity.
Qed.

Lemma drive_handler_document_witness :
  Forall (fun ev => is_stream_step ev = false)
    (drive_handler (document_env (Some pdf_links)) document_update []).2 /\
  drive_handler (document_env (Some pdf_links)) document_update [] =
    (Ok tt,
     [EvGetFile (str "D1"); EvGetLocale (str "en") DRIVE_ERROR_GFILE_TEXT_ID;
      EvSendMessage 42 (str "Export: https://docs.example/D1.pdf") None;
      EvAnswer]).
Proof.
  destruct (drive_handler_document (document_env (Some pdf_links)) document_update
              (sample_document (Some pdf_links)) eq_refl eq_refl)
    as (Hstream & _ & Hsend).
  split; [exact Hstream|].
  apply (Hsend (str "Export: {}") pdf_links (str "https://docs.example/D1.pdf"));
    solve [reflexivity | vm_compute; reflexivity].
Defined.

(** X13. For an online document without export links, or without a PDF
    entry among them, the [KeyError] is not caught: after the text lookup
    it leaves the handler, and no message is sent, nothing is reported
    and the callback is not answered. *)
Theorem drive_handler_document_no_link (env : Collaborators) (update : CallbackUpdate)
    (fetched_file : GoogleDriveFile) (gfile_text : list N) :
  let cq := callback_query update in
  let query_data := replace DRIVE_FILE_PREFIX [] (data cq) in
  let locale := language_code (cq_from_user cq) in
  let ev_fetch := EvGetFile query_data in
  let ev_text := EvGetLocale locale DRIVE_ERROR_GFILE_TEXT_ID in
  get_file_reply env [] query_data = Ok fetched_file ->
  mimeType fetched_file = DOCUMENT_MIME ->
  get_locale_reply env [ev_fetch] locale DRIVE_ERROR_GFILE_TEXT_ID = Ok gfile_text ->
  (exportLinks fetched_file = None ->
   drive_handler env update [] =
     (Raise (KeyError (str "exportLinks")), [ev_fetch; ev_text])) /\
  (forall links,
      exportLinks fetched_file = Some links ->
      links !! str "application/pdf" = None ->
      drive_handler env update [] =
        (Raise (KeyError (str "application/pdf")), [ev_fetch; ev_text])).
Proof.
  cbv zeta. intros Hget Hkind Htext.
  assert (Hnot : mimeType fetched_file <> FOLDER_MIME).
  { rewrite Hkind. exact DOCUMENT_MIME_not_folder. }
  split.
  - intros Hlinks. run_handler. rewrite Hget. step.
    rewrite bool_decide_eq_false_2 by exact Hnot.
    rewrite bool_decide_eq_true_2 by exact Hkind. step.
    rewrite Htext. step. rewrite Hlinks. reflexivity.
  - intros links Hlinks Hpdf. run_handler. rewrite Hget. step.
    rewrite bool_decide_eq_false_2 by exact Hnot.
    rewrite bool_decide_eq_true_2 by exact Hkind. step.
    rewrite Htext. step. rewrite Hlinks. step. rewrite Hpdf. reflexivity.
Qed.

Lemma drive_handler_document_no_link_witness :
  drive_handler (document_env None) document_update [] =
    (Raise (KeyError (str "exportLinks")),
     [EvGetFile (str "D1"); EvGetLocale (str "en") DRIVE_ERROR_GFILE_TEXT_ID]) /\
  drive_handler (document_env (Some ∅)) document_update [] =
    (Raise (KeyError (str "application/pdf")),
     [EvGetFile (str "D1"); EvGetLocale (str "en") DRIVE_ERROR_GFILE_TEXT_ID]).
Proof.
  split.
  - apply (proj1 (drive_handler_document_no_link (document_env None) document_update
                    (sample_document None) (str "Export: {}") eq_refl eq_refl eq_refl)).
    reflexivity.
  - apply (proj2 (drive_handler_document_no_link (document_env (Some ∅))
                    document_update (sample_document (Some ∅)) (str "Export: {}")
                    eq_refl eq_refl eq_refl) ∅); reflexivity.
Defined.

(** ** drive_handler: what is caught and what is not *)

(** X14. In the regular-file branch a signal that is not an instance of
    [Exception] (a [KeyboardInterrupt], a [SystemExit]) raised by the
    body of the [try] is not caught: it leaves the handler, and after
    the failing call nothing is called, neither [log_error] nor
    [answer]. *)
Theorem drive_handler_signal_propagates (env : Collaborators)
    (update : CallbackUpdate) (fetched_file : GoogleDriveFile) (e : Exn)
    (tr1 : list Event) :
  let cq := callback_query update in
  let query_data := replace DRIVE_FILE_PREFIX [] (data cq) in
  let chat := user_id (cq_from_user cq) in
  let locale := language_code (cq_from_user cq) in
  get_file_reply env [] query_data = Ok fetched_file ->
  mimeType fetched_file <> FOLDER_MIME ->
  mimeType fetched_file <> DOCUMENT_MIME ->
  file_branch_body env chat locale fetched_file [EvGetFile query_data]
    = (Raise e, tr1) ->
  is_Exception e = false ->
  drive_handler env update [] = (Raise e, tr1).
Proof.
  cbv zeta. intros Hget Hfolder Hdoc Hbody Hexc.
  cbv [drive_handler dispatch try_except get_file answer log_error call
       mbind M_bind mret M_ret].
  rewrite Hget. step.
  rewrite bool_decide_eq_false_2 by exact Hfolder.
  rewrite bool_decide_eq_false_2 by exact Hdoc. step.
  rewrite Hbody. step. rewrite Hexc. reflexivity.
Qed.

Lemma drive_handler_signal_propagates_witness :
  drive_handler (file_env 1000 interrupted_send) file_update [] =
    (Raise (SystemSignal (str "KeyboardInterrupt")),
     [EvGetFile (str "X1"); EvGetFile (str "X1");
      EvGetContentIOBuffer (sample_regular 1000);
      EvSendChatAction 42 (str "UPLOAD_DOCUMENT");
      EvSendDocument 42 {| stream := str "X1"; name := Some (str "notes.txt") |}]).
Proof.
  exact (drive_handler_signal_propagates (file_env 1000 interrupted_send) file_update
           (sample_regular 1000) (SystemSignal (str "KeyboardInterrupt")) _
           eq_refl ltac:(vm_compute; discriminate) ltac:(vm_compute; discriminate)
           eq_refl eq_refl).
Defined.

(** X15. A regular file whose second fetch has no [fileSize]: the
    [KeyError] is caught inside the branch. Nothing is streamed and no
    message is sent; the error is reported to [log_error] and the
    callback is answered. *)
Theorem drive_handler_missing_size (env : Collaborators) (update : CallbackUpdate)
    (fetched_file file_d : GoogleDriveFile) :
  let cq := callback_query update in
  let query_data := replace DRIVE_FILE_PREFIX [] (data cq) in
  let ev_fetch := EvGetFile query_data in
  let ev_again := EvGetFile (id fetched_file) in
  let ev_report := EvLogError (str "drive_handler") (KeyError (str "fileSize")) in
  get_file_reply env [] query_data = Ok fetched_file ->
  mimeType fetched_file <> FOLDER_MIME ->
  mimeType fetched_file <> DOCUMENT_MIME ->
  get_file_reply env [ev_fetch] (id fetched_file) = Ok file_d ->
  fileSize file_d = None ->
  drive_handler env update [] =
    match log_error_reply env [ev_fetch; ev_again] (str "drive_handler")
            (KeyError (str "fileSize")) with
    | Ok _ => (answer_reply env [ev_fetch; ev_again; ev_report],
               [ev_fetch; ev_again; ev_report; EvAnswer])
    | Raise e' => (Raise e', [ev_fetch; ev_again; ev_report])
    end.
Proof.
  cbv zeta. intros Hget Hfolder Hdoc Hagain Hsize.
  run_handler. rewrite Hget. step.
  rewrite bool_decide_eq_false_2 by exact Hfolder.
  rewrite bool_decide_eq_false_2 by exact Hdoc. step.
  rewrite Hagain. step. rewrite Hsize. step.
  destruct (log_error_reply env _ _ _); reflexivity.
Qed.

Lemma drive_handler_missing_size_witness :
  drive_handler sizeless_env file_update [] =
    (Ok tt,
     [EvGetFile (str "X1"); EvGetFile (str "X1");
      EvLogError (str "drive_handler") (KeyError (str "fileSize")); EvAnswer]).
Proof.
  exact (drive_handler_missing_size sizeless_env file_update sizeless_file sizeless_file
           eq_refl ltac:(vm_compute; discriminate) ltac:(vm_compute; discriminate)
           eq_refl eq_refl).
Defined.

(** X16. Whatever the collaborators do, the handler reports at most one
    error, always under the header drive_handler, and only for an item
    that is neither a folder nor an online document: the failures of the
    first fetch, of the folder branch and of the document branch are
    never reported. *)
Theorem drive_handler_reports (env : Collaborators) (update : CallbackUpdate) :
  let query_data := replace DRIVE_FILE_PREFIX [] (data (callback_query update)) in
  reports (drive_handler env update []).2 = [] \/
  exists fetched_file e,
    get_file_reply env [] query_data = Ok fetched_file /\
    mimeType fetched_file <> FOLDER_MIME /\
    mimeType fetched_file <> DOCUMENT_MIME /\
    is_Exception e = true /\
    reports (drive_handler env update []).2 = [(str "drive_handler", e)].
Proof.
  cbv zeta. run_handler.
  destruct (get_file_reply env [] _) as [fetched_file|] eqn:Hget; step;
    [|left; reflexivity].
  destruct (bool_decide (mimeType fetched_file = FOLDER_MIME)) eqn:Hfolder.
  { cases; left; reflexivity. }
  destruct (bool_decide (mimeType fetched_file = DOCUMENT_MIME)) eqn:Hdoc.
  { cases; left; reflexivity. }
  apply bool_decide_eq_false_1 in Hfolder, Hdoc.
  cases; cbn [snd reports omap list_omap];
    first [ left; reflexivity
          | right; eexists fetched_file, _;
            split; [reflexivity|]; split; [exact Hfolder|]; split; [exact Hdoc|];
            split; [eassumption | reflexivity] ].
Qed.

(** ** drive_handler: the folder and the acknowledgement *)

(** X17. In the folder branch with the children listed, the message of
    the pressed button is edited in place: the chat is the user who
    pressed, the message is the one that carries the keyboard, and the
    new text is the title of the folder followed by a colon. If the edit
    returns, the callback is answered next; if it raises, the exception
    leaves the handler and the callback is not answered. *)
Theorem drive_handler_folder_edit (env : Collaborators) (update : CallbackUpdate)
    (fetched_file : GoogleDriveFile) (file_list : list GoogleDriveFile)
    (keyboard keyboard' : list (list InlineKeyboardButton)) (tr2 : list Event) :
  let cq := callback_query update in
  let query_data := replace DRIVE_FILE_PREFIX [] (data cq) in
  let chat := user_id (cq_from_user cq) in
  let msg := message_id (cq_message cq) in
  let locale := language_code (cq_from_user cq) in
  let ev_fetch := EvGetFile query_data in
  let ev_list := EvListFiles (Some (id fetched_file)) in
  let new_text := title fetched_file ++ str ":" in
  let ev_edit := EvEditMessageText chat msg new_text (Some keyboard') in
  get_file_reply env [] query_data = Ok fetched_file ->
  mimeType fetched_file = FOLDER_MIME ->
  list_files_reply env [ev_fetch] (Some (id fetched_file)) = Ok (Some file_list) ->
  get_files_keyboard file_list 2 = Ok keyboard ->
  with_back_row env locale fetched_file keyboard [ev_fetch; ev_list]
    = (Ok keyboard', tr2) ->
  drive_handler env update [] =
    match editMessageText_reply env tr2 chat msg new_text (Some keyboard') with
    | Ok _ => (answer_reply env (tr2 ++ [ev_edit]), tr2 ++ [ev_edit; EvAnswer])
    | Raise e => (Raise e, tr2 ++ [ev_edit])
    end.
Proof.
  cbv zeta. intros Hget Hkind Hlist Hk Hback.
  cbv [drive_handler dispatch get_file list_files editMessageText answer call lift
       mbind M_bind mret M_ret].
  rewrite Hget. step. rewrite bool_decide_eq_true_2 by exact Hkind. step.
  rewrite Hlist. step. rewrite Hk. step. rewrite Hback. step.
  destruct (editMessageText_reply env tr2 _ _ _ _); step;
    [rewrite <- app_assoc|]; reflexivity.
Qed.

Lemma drive_handler_folder_edit_witness :
  exists keyboard,
    get_files_keyboard sample_files 2 = Ok keyboard /\
    drive_handler (folder_env under_P1) folder_update [] =
      (Ok tt,
       [EvGetFile (str "F1"); EvListFiles (Some (str "F1"));
        EvGetLocale (str "en") BACK_BUTTON_TEXT_TEXT_ID;
        EvEditMessageText 42 7 (str "Lectures:")
          (Some (keyboard ++
                   [[ {| text := str "Back"; callback_data := str "drive_file_P1" |} ]]));
        EvAnswer]).
Proof.
  destruct (get_files_keyboard sample_files 2) as [keyboard|] eqn:Hk;
    [|vm_compute in Hk; discriminate Hk].
  exists keyboard. split; [reflexivity|].
  apply (drive_handler_folder_edit (folder_env under_P1) folder_update
           (sample_folder under_P1) sample_files keyboard
           (keyboard ++
              [[ {| text := str "Back"; callback_data := str "drive_file_P1" |} ]])
           [EvGetFile (str "F1"); EvListFiles (Some (str "F1"));
            EvGetLocale (str "en") BACK_BUTTON_TEXT_TEXT_ID]);
    solve [reflexivity | exact Hk].
Defined.

(** X18. Whatever the collaborators do, [answer] is called at most once
    in a run of the handler, and then it is the last call. *)
Theorem drive_handler_answer_last (env : Collaborators) (update : CallbackUpdate) :
  let tr := (drive_handler env update []).2 in
  List.filter is_answer tr = [] \/
  exists before, tr = before ++ [EvAnswer] /\ List.filter is_answer before = [].
Proof.
  cbv zeta. run_handler. cases; cbn [snd];
    first [ left; reflexivity
          | right;
            match goal with
            | |- exists before, ?tr = _ /\ _ =>
                exists (removelast tr); split; reflexivity
            end ].
Qed.

Lemma drive_handler_answers_unless_listing_failed_witness :
  last (drive_handler (folder_env under_P1) folder_update []).2 = Some EvAnswer \/
  exists fetched_file,
    get_file_reply (folder_env under_P1) [] (str "F1") = Ok fetched_file /\
    mimeType fetched_file = FOLDER_MIME /\
    list_files_reply (folder_env under_P1) [EvGetFile (str "F1")]
      (Some (id fetched_file)) = Ok None.
Proof.
  exact (drive_handler_answers_unless_listing_failed (folder_env under_P1)
           folder_update eq_refl).
Defined.
